(** * pics.py: image to tensor-literal converter

  A shallow embedding of [samples/c_cxx/classy/pics.py]: the function
  [preprocess] (decode, resize, cast, transpose, expand_dims, slice) and
  the module-level print loop, together with the part of PIL and NumPy
  the script calls.  NumPy arrays are strided views over a flat buffer,
  as in NumPy itself; Python exceptions are values of type [exn]; the
  interpreter's standard output is a list of lines.  PIL's decoders and
  resamplers and NumPy's printing of floats are parameters; for line 6
  the bilinear resampler is modelled from the spec. *)

From Stdlib Require Import List ZArith Lia String Ascii QArith Bool PeanoNat.
From Stdlib Require Import Strings.Byte.
From Stdlib Require Import Floats.SpecFloat.
From Stdlib Require Import DecimalString Qround.
Import ListNotations.

#[local] Set Warnings "-notation-for-abbreviation".

Local Open Scope string_scope.
Local Open Scope list_scope.
Local Open Scope nat_scope.

(** ** Python exceptions and fallible results *)

Inductive exn : Type :=
| IOError (msg : string)
| ValueError (msg : string)
| IndexError (msg : string)
| TypeError (msg : string).

Definition result (A : Type) : Type := (exn + A)%type.

Definition OK {A} (x : A) : result A := inr x.
Definition raise {A} (e : exn) : result A := inl e.

Definition rbind {A B} (r : result A) (k : A -> result B) : result B :=
  match r with
  | inl e => inl e
  | inr x => k x
  end.

Notation "x <-- r ;;; k" := (rbind r (fun x => k))
  (at level 61, r at next level, right associativity).

(** ** np.float32: IEEE 754 binary32 *)

Definition float32 : Type := spec_float.

Module F32.

Definition prec : Z := 24.
Definition emax : Z := 128.

(** Conversion of an integer, rounding to nearest even. *)
Definition of_Z (n : Z) : float32 := binary_normalize prec emax n 0 false.

(** [astype(np.float32)] on a uint8 sample. *)
Definition of_uint8 (b : byte) : float32 := of_Z (Z.of_N (Byte.to_N b)).

(** The rational a float stands for; [None] for infinities and NaN. *)
Definition value (f : float32) : option Q :=
  match f with
  | S754_zero _ => Some (0 # 1)%Q
  | S754_finite s m e =>
      let sm := if s then Z.neg m else Z.pos m in
      Some (Qred (match e with
                  | Z0 => sm # 1
                  | Zpos p => (sm * Z.pow_pos 2 p) # 1
                  | Zneg p => sm # (Pos.pow 2 p)
                  end))
  | S754_infinity _ => None
  | S754_nan => None
  end.

End F32.

(** ** PIL images *)

(** The 8-bit modes; [bands] is the number of samples per pixel. *)
Inductive mode : Type := L | LA | RGB | RGBA.

Definition bands (m : mode) : nat :=
  match m with
  | L => 1
  | LA => 2
  | RGB => 3
  | RGBA => 4
  end.

(** Resampling filters of [Image.resize]. *)
Inductive filter : Type := NEAREST | ANTIALIAS | BILINEAR | BICUBIC.

(** A loaded image: mode, size as (width, height), and pixel access
  [getpixel x y band]. *)
Record Image : Type := mkImage {
  im_mode : mode;
  im_size : nat * nat;
  getpixel : nat -> nat -> nat -> byte
}.

Definition width (im : Image) : nat := fst (im_size im).
Definition height (im : Image) : nat := snd (im_size im).

(** The raster of an image: rows top to bottom, pixels left to right,
  the bands of a pixel adjacent (what [tobytes] yields). *)
Definition raster {A} (w h nb : nat) (f : nat -> nat -> nat -> A) : list A :=
  flat_map (fun y =>
    flat_map (fun x => map (fun b => f x y b) (seq 0 nb)) (seq 0 w))
    (seq 0 h).

(** ** NumPy arrays *)

Fixpoint prod (l : list nat) : nat :=
  match l with
  | [] => 1
  | d :: r => d * prod r
  end.

(** Strides of a C-contiguous array, counted in elements. *)
Fixpoint c_strides (shp : list nat) : list nat :=
  match shp with
  | [] => []
  | _ :: r => prod r :: c_strides r
  end.

(** A view: per axis its length and its stride (in elements), the offset
  of the first element, and the buffer the view looks into. *)
Record ndarray : Type := mkArr {
  dims : list (nat * nat);
  offset : nat;
  buf : list float32
}.

Definition shape (a : ndarray) : list nat := map fst (dims a).
Definition strides (a : ndarray) : list nat := map snd (dims a).
Definition ndim (a : ndarray) : nat := List.length (dims a).

Fixpoint dot (idx str : list nat) : nat :=
  match idx, str with
  | i :: idx', s :: str' => i * s + dot idx' str'
  | _, _ => 0
  end.

Fixpoint in_shape (idx shp : list nat) : bool :=
  match idx, shp with
  | [], [] => true
  | i :: idx', d :: shp' => (i <? d) && in_shape idx' shp'
  | _, _ => false
  end.

(** [a[i0, ..., ik]] with as many integer indices as the array has axes. *)
Definition get (a : ndarray) (idx : list nat) : option float32 :=
  if in_shape idx (shape a)
  then nth_error (buf a) (offset a + dot idx (strides a))
  else None.

(** [np.array(img, dtype=np.float32)]: a fresh C-contiguous array of
  shape (height, width) for a single-band image and of shape
  (height, width, bands) otherwise, holding the raster cast to float32. *)
Definition array_shape (im : Image) : list nat :=
  if bands (im_mode im) =? 1
  then [height im; width im]
  else [height im; width im; bands (im_mode im)].

Definition np_array (im : Image) : ndarray :=
  {| dims := combine (array_shape im) (c_strides (array_shape im));
     offset := 0;
     buf := map F32.of_uint8
              (raster (width im) (height im) (bands (im_mode im)) (getpixel im)) |}.

Fixpoint nodupb (l : list nat) : bool :=
  match l with
  | [] => true
  | x :: r => negb (existsb (Nat.eqb x) r) && nodupb r
  end.

(** [np.transpose(a, axes)]: a view whose axis [i] is axis [axes[i]] of [a]. *)
Definition transpose (a : ndarray) (axes : list nat) : result ndarray :=
  if negb (List.length axes =? ndim a)
  then raise (ValueError "axes don't match array")
  else if negb (forallb (fun ax => ax <? ndim a) axes)
  then raise (ValueError "invalid axis for this array")
  else if negb (nodupb axes)
  then raise (ValueError "repeated axis in transpose")
  else OK {| dims := map (fun ax => nth ax (dims a) (0, 0)) axes;
             offset := offset a;
             buf := buf a |}.

Fixpoint insert_at {A} (n : nat) (x : A) (l : list A) : list A :=
  match n, l with
  | O, _ => x :: l
  | S n', y :: r => y :: insert_at n' x r
  | S _, [] => [x]
  end.

(** [np.expand_dims(a, axis)]: a view with an axis of length 1 inserted. *)
Definition expand_dims (a : ndarray) (axis : nat) : result ndarray :=
  if ndim a <? axis
  then raise (ValueError "axis out of bounds")
  else OK {| dims := insert_at axis (1, 0) (dims a);
             offset := offset a;
             buf := buf a |}.

(** A slice [start:stop] of an index expression; [None] is an omitted
  bound, so [Slice None None] is [:]. *)
Inductive index : Type := Slice (start stop : option nat).

Definition slice_lo (start : option nat) (n : nat) : nat :=
  match start with
  | None => 0
  | Some s => Nat.min s n
  end.

Definition slice_hi (stop : option nat) (n : nat) : nat :=
  match stop with
  | None => n
  | Some s => Nat.min s n
  end.

(** Basic slicing along the leading axes; axes without an index are kept
  whole.  Returns the axes of the view and the offset it adds. *)
Fixpoint slice_axes (ixs : list index) (ds : list (nat * nat))
  : list (nat * nat) * nat :=
  match ixs, ds with
  | Slice start stop :: ixs', (d, s) :: ds' =>
      let lo := slice_lo start d in
      let hi := slice_hi stop d in
      let '(ds2, off) := slice_axes ixs' ds' in
      ((hi - lo, s) :: ds2, lo * s + off)
  | _, _ => (ds, 0)
  end.

(** [a[ixs]] for an index expression made of slices. *)
Definition getitem (a : ndarray) (ixs : list index) : result ndarray :=
  if ndim a <? List.length ixs
  then raise (IndexError "too many indices for array")
  else
    let '(ds, off) := slice_axes ixs (dims a) in
    OK {| dims := ds; offset := offset a + off; buf := buf a |}.

(** What iterating an array yields: sub-arrays, or scalars for a 1-d array. *)
Inductive item : Type :=
| Scalar (v : float32)
| Arr (a : ndarray).

(** [a[i]] for the [i]-th step of an iteration over [a], whose first axis
  has stride [s] and whose other axes are [rest]. *)
Definition subitem (a : ndarray) (rest : list (nat * nat)) (s i : nat) : result item :=
  match rest with
  | [] =>
      match nth_error (buf a) (offset a + i * s) with
      | Some v => OK (Scalar v)
      | None => raise (IndexError "index out of bounds")
      end
  | _ :: _ =>
      OK (Arr {| dims := rest; offset := offset a + i * s; buf := buf a |})
  end.

(** ** The process: its environment, its effects *)

(** What a run can observe of its surroundings. *)
Record world : Type := mkWorld {
  files : string -> option (list byte);
  environ : string -> option string;
  clock : Z;
  entropy : list byte
}.

(** What a run leaves behind: the paths it asked PIL to open, in order,
  and the lines it printed. *)
Record process : Type := mkProcess {
  opened : list string;
  stdout : list string
}.

Definition start : process := {| opened := []; stdout := [] |}.

Definition emit (ls : list string) (s : process) : process :=
  {| opened := opened s; stdout := stdout s ++ ls |}.

(** Statements: read the world, update the process, return or raise. *)
Definition Run (A : Type) : Type := world -> process -> process * result A.

Definition ret {A} (x : A) : Run A := fun _ s => (s, OK x).

Definition throw {A} (e : exn) : Run A := fun _ s => (s, raise e).

Definition bind {A B} (m : Run A) (k : A -> Run B) : Run B :=
  fun w s =>
    match m w s with
    | (s', inl e) => (s', inl e)
    | (s', inr x) => k x w s'
    end.

Definition lift {A} (r : result A) : Run A := fun _ s => (s, r).

Notation "x <- m ;; k" := (bind m (fun x => k))
  (at level 61, m at next level, right associativity).
Notation "m ;; k" := (bind m (fun _ => k))
  (at level 61, right associativity).

(** The [print] statement: one line on standard output. *)
Definition print (line : string) : Run unit :=
  fun _ s => (emit [line] s, OK tt).

Fixpoint for_each {A} (xs : list A) (body : A -> Run unit) : Run unit :=
  match xs with
  | [] => ret tt
  | x :: rest => body x ;; for_each rest body
  end.

(** [for v in x: body]: the items of [x] are fetched one by one. *)
Definition for_in (x : item) (body : item -> Run unit) : Run unit :=
  match x with
  | Scalar _ => throw (TypeError "'numpy.float32' object is not iterable")
  | Arr a =>
      match dims a with
      | [] => throw (TypeError "iteration over a 0-d array")
      | (d, s) :: rest =>
          for_each (seq 0 d) (fun i => v <- lift (subitem a rest s i) ;; body v)
      end
  end.

Section Script.

(** The parts of the libraries the script relies on without fixing them:
    PIL's decoders, PIL's resampling arithmetic, and the text NumPy gives
    for a float32 scalar and for an array. *)
Variable decode : list byte -> result Image.
Variable resample :
  filter -> Image -> nat * nat -> result (nat -> nat -> nat -> byte).
Variable str_float32 : float32 -> string.
Variable str_ndarray : ndarray -> string.

(** [Image.open(path)] *)
Definition Image_open (path : string) : Run Image :=
  fun w s =>
    let s' := {| opened := opened s ++ [path]; stdout := stdout s |} in
    match files w path with
    | None => (s', raise (IOError "No such file or directory"))
    | Some bytes => (s', decode bytes)
    end.

(** [img.resize(size, resample)]: the resampler works on the whole of
    [img]; when it returns, the result is an image of the requested size
    and of the mode of [img]. *)
Definition resize (img : Image) (size : nat * nat) (flt : filter) : result Image :=
  px <-- resample flt img size ;;;
  OK {| im_mode := im_mode img; im_size := size; getpixel := px |}.

(** [str(x)] *)
Definition str (x : item) : string :=
  match x with
  | Scalar v => str_float32 v
  | Arr a => str_ndarray a
  end.

(** Lines 4 to 11. *)
Definition preprocess (img_path : string) : Run ndarray :=
  img <- Image_open img_path ;;
  img <- lift (resize img (224, 224) BILINEAR) ;;
  img_data <- ret (np_array img) ;;
  img_data <- lift (transpose img_data [2; 0; 1]) ;;
  img_data <- lift (expand_dims img_data 0) ;;
  img_data <- lift (getitem img_data
                      [Slice None None; Slice (Some 0) (Some 3);
                       Slice None None; Slice None None]) ;;
  ret img_data.

(** Lines 13 to 21, with the path of line 13 as a parameter. *)
Definition script (img_path : string) : Run unit :=
  mushroom <- preprocess img_path ;;
  print "std::vector<float> mushroom = {" ;;
  for_in (Arr mushroom) (fun a =>
    for_in a (fun b =>
      for_in b (fun c =>
        for_in c (fun d =>
          print ("    " ++ str d ++ ",")%string)))) ;;
  print "};".

Definition main : Run unit := script "cheetah.png".

(** A run of the interpreter on the script. *)
Definition run (w : world) : process * result unit := main w start.

(** *** Stages of [preprocess] on their own *)

(** Lines 8 to 10 on the freshly converted array. *)
Definition tensor_of_array (img_data : ndarray) : result ndarray :=
  img_data <-- transpose img_data [2; 0; 1] ;;;
  img_data <-- expand_dims img_data 0 ;;;
  getitem img_data
    [Slice None None; Slice (Some 0) (Some 3); Slice None None; Slice None None].

(** Lines 6 to 10 on the opened image. *)
Definition tensor_of_image (img : Image) : result ndarray :=
  img <-- resize img (224, 224) BILINEAR ;;;
  tensor_of_array (np_array img).

(** *** Failure of a library call inside [preprocess]

    [fails w path e]: on the file at [path], decoding (a missing file, a
    format no decoder accepts), resizing or an array operation raises [e]. *)
Inductive fails (w : world) (path : string) (e : exn) : Prop :=
| fails_missing :
    files w path = None ->
    e = IOError "No such file or directory" ->
    fails w path e
| fails_decode bytes :
    files w path = Some bytes ->
    decode bytes = raise e ->
    fails w path e
| fails_resize bytes img :
    files w path = Some bytes ->
    decode bytes = OK img ->
    resize img (224, 224) BILINEAR = raise e ->
    fails w path e
| fails_array bytes img img' :
    files w path = Some bytes ->
    decode bytes = OK img ->
    resize img (224, 224) BILINEAR = OK img' ->
    tensor_of_array (np_array img') = raise e ->
    fails w path e.

End Script.

(** [a.ravel()]: the elements of a view in row-major order of its indices. *)
Fixpoint walk (ds : list (nat * nat)) (b : list float32) (off : nat) : list float32 :=
  match ds with
  | [] =>
      match nth_error b off with
      | Some v => [v]
      | None => []
      end
  | (d, s) :: rest => flat_map (fun i => walk rest b (off + i * s)) (seq 0 d)
  end.

Definition ravel (a : ndarray) : list float32 := walk (dims a) (buf a) (offset a).

(** The view lines 8 to 10 leave of [np_array img] for an image of several
  bands: a batch axis of stride 0, the band axis cut to at most three
  bands, then rows and columns, all over the buffer of [np_array img]. *)
Definition chw_view (img : Image) : ndarray :=
  let c := bands (im_mode img) in
  {| dims := [(1, 0); (Nat.min 3 c, 1);
              (height img, width img * (c * 1)); (width img, c * 1)];
     offset := 0;
     buf := buf (np_array img) |}.

(** The first [n] bands of an image, band after band, each band row by
    row from the top and every row from the left. *)
Definition planes (n : nat) (img : Image) : list byte :=
  flat_map (fun c =>
    flat_map (fun y => map (fun x => getpixel img x y c) (seq 0 (width img)))
      (seq 0 (height img)))
    (seq 0 n).

(** ** Bilinear resampling *)

(** Modelled from the spec: the resampler PIL runs for [Image.BILINEAR],
    which is no part of this repository.  The spec has the picture
    stretched to the requested size along each axis on its own, without
    cropping or letterboxing, every output sample being a weighted average
    of the four nearest input samples.  Along an axis of [n_in] input
    pixels and [n_out] output pixels, the centre of output pixel [i] falls
    at (i + 1/2) * n_in / n_out - 1/2, pixel [j] of the input being centred
    at [j]; [axis_pos] is that position, kept inside the input and
    counted in units of 1 / (2 * n_out). *)
Definition axis_pos (n_in n_out i : nat) : Z :=
  Z.max 0
    (Z.min ((2 * Z.of_nat i + 1) * Z.of_nat n_in - Z.of_nat n_out)
           ((Z.of_nat n_in - 1) * (2 * Z.of_nat n_out))).

(** Modelled from the spec: part of PIL's bilinear resampler, see
    [axis_pos].  The two input pixels next to a position and the weight of
    the second of them, out of [2 * n_out]. *)
Record taps : Type := mkTaps {
  tap_lo : nat;
  tap_hi : nat;
  tap_frac : Z
}.

(** Modelled from the spec: part of PIL's bilinear resampler, see
    [axis_pos].  The pixels next to the position of output pixel [i]: the
    one at or before it and the one after, the last pixel serving twice at
    the far border. *)
Definition axis_taps (n_in n_out i : nat) : taps :=
  let den := (2 * Z.of_nat n_out)%Z in
  let p := axis_pos n_in n_out i in
  let l := Z.to_nat (p / den) in
  {| tap_lo := l;
     tap_hi := Nat.min (l + 1) (n_in - 1);
     tap_frac := (p mod den)%Z |}.

Definition Z_of_uint8 (b : byte) : Z := Z.of_N (Byte.to_N b).

Definition uint8_of_Z (z : Z) : byte :=
  match Byte.of_N (Z.to_N (Z.max 0 (Z.min z 255))) with
  | Some b => b
  | None => xff
  end.

(** Modelled from the spec: part of PIL's bilinear resampler, see
    [axis_pos].  The average of four samples with weights out of
    [dx * dy], rounded to the nearest integer. *)
Definition blend (dx dy : Z) (tx ty : taps) (p00 p10 p01 p11 : byte) : byte :=
  let fx := tap_frac tx in
  let fy := tap_frac ty in
  let sum := ((dx - fx) * (dy - fy) * Z_of_uint8 p00
              + fx * (dy - fy) * Z_of_uint8 p10
              + (dx - fx) * fy * Z_of_uint8 p01
              + fx * fy * Z_of_uint8 p11)%Z in
  uint8_of_Z ((2 * sum + dx * dy) / (2 * (dx * dy))).

(** Modelled from the spec: PIL's resampler for [Image.BILINEAR], absent
    from this repository.  Each output sample is the weighted average of
    the four input samples nearest to the position its centre is
    stretched to, each axis with its own scale. *)
Definition bilinear (img : Image) (size : nat * nat)
  : result (nat -> nat -> nat -> byte) :=
  if (width img =? 0) || (height img =? 0) || (fst size =? 0) || (snd size =? 0)
  then raise (ValueError "height and width must be > 0")
  else
    OK (fun x y b =>
          let tx := axis_taps (width img) (fst size) x in
          let ty := axis_taps (height img) (snd size) y in
          blend (2 * Z.of_nat (fst size)) (2 * Z.of_nat (snd size)) tx ty
            (getpixel img (tap_lo tx) (tap_lo ty) b)
            (getpixel img (tap_hi tx) (tap_lo ty) b)
            (getpixel img (tap_lo tx) (tap_hi ty) b)
            (getpixel img (tap_hi tx) (tap_hi ty) b)).

(** ** A small instance of the libraries

  A toy codec (one byte for the mode, one for the width, one for the
  height, then the raster), nearest-neighbour resampling and a printer
  for integral floats; used to run the script on concrete files. *)
Module Demo.

Definition mode_of_tag (b : byte) : option mode :=
  match Byte.to_N b with
  | 0%N => Some L
  | 1%N => Some LA
  | 2%N => Some RGB
  | 3%N => Some RGBA
  | _ => None
  end.

Definition decode (bytes : list byte) : result Image :=
  match bytes with
  | m :: w :: h :: px =>
      match mode_of_tag m with
      | Some md =>
          let W := N.to_nat (Byte.to_N w) in
          let H := N.to_nat (Byte.to_N h) in
          OK {| im_mode := md;
                im_size := (W, H);
                getpixel := fun x y b => nth ((y * W + x) * bands md + b) px x00 |}
      | None => raise (IOError "cannot identify image file")
      end
  | _ => raise (IOError "cannot identify image file")
  end.

Definition resample (flt : filter) (img : Image) (size : nat * nat)
  : result (nat -> nat -> nat -> byte) :=
  if (width img =? 0) || (height img =? 0)
  then raise (ValueError "cannot resize an empty image")
  else OK (fun x y b =>
             getpixel img (x * width img / fst size) (y * height img / snd size) b).

(** Bilinear when asked for it, nearest neighbour otherwise. *)
Definition resample_by_filter (flt : filter) (img : Image) (size : nat * nat)
  : result (nat -> nat -> nat -> byte) :=
  match flt with
  | BILINEAR => bilinear img size
  | _ => resample flt img size
  end.

Definition str_float32 (v : float32) : string :=
  match F32.value v with
  | Some q => (NilZero.string_of_int (Z.to_int (Qfloor q)) ++ ".0")%string
  | None => "nan"
  end.

Definition str_ndarray (a : ndarray) : string := "[...]".

(** Reading back the text of a float32 that was cast from a uint8. *)
Definition all_bytes : list byte :=
  map (fun n => match Byte.of_N (N.of_nat n) with
                | Some b => b
                | None => x00
                end) (seq 0 256).

Definition parse_uint8 (text : string) : option byte :=
  find (fun b => String.eqb (str_float32 (F32.of_uint8 b)) text) all_bytes.

Definition disk (name : string) (content : list byte) : world :=
  {| files := fun p => if String.eqb p name then Some content else None;
     environ := fun _ => None;
     clock := 0%Z;
     entropy := [] |}.

(** A 2x1 RGBA picture, a 2x1 RGB one, a 1x1 LA one, a 1x1 L one,
    a file that is no picture, a picture of no pixels, and a directory
    without the picture. *)
Definition rgba_file : list byte :=
  [x03; x02; x01; x0a; x14; x1e; xff; x28; x32; x3c; x80].
Definition rgb_file : list byte :=
  [x02; x02; x01; x0a; x14; x1e; x28; x32; x3c].
Definition la_file : list byte := [x01; x01; x01; x64; xff].
Definition l_file : list byte := [x00; x01; x01; x64].
Definition junk_file : list byte := [x47; x49].
Definition empty_file : list byte := [x02; x00; x00].

(** A 100x50 RGBA picture, one pixel set. *)
Definition wide_file : list byte := [x03; x64; x32; x0a; x14; x1e; xff].
Definition wide_world : world := disk "cheetah.png" wide_file.

Definition rgba_world : world := disk "cheetah.png" rgba_file.
Definition rgb_world : world := disk "cheetah.png" rgb_file.
Definition la_world : world := disk "cheetah.png" la_file.
Definition l_world : world := disk "cheetah.png" l_file.
Definition junk_world : world := disk "cheetah.png" junk_file.
Definition zero_world : world := disk "cheetah.png" empty_file.
Definition empty_world : world := disk "mushroom.png" rgba_file.

(** The same picture in a different environment. *)
Definition rgba_world_later : world :=
  {| files := fun p => if String.eqb p "cheetah.png" then Some rgba_file
                       else if String.eqb p "mushroom.png" then Some rgb_file
                       else None;
     environ := fun v => if String.eqb v "HOME" then Some "/root" else None;
     clock := 1540000000%Z;
     entropy := [x5a; xa5] |}.

End Demo.

(** * Properties *)

(** ** Lists laid out in equal chunks *)

Section Chunks.

Context {A : Type}.
Variable f : nat -> list A.
Variable n : nat.

Lemma chunks_length d :
  (forall i, i < d -> List.length (f i) = n) ->
  List.length (flat_map f (seq 0 d)) = d * n.
Proof.
  induction d as [|d IH]; intros Hlen.
  - reflexivity.
  - rewrite seq_S, flat_map_app, length_app. cbn [flat_map Nat.add].
    rewrite app_nil_r, IH, Hlen by auto with arith. lia.
Qed.

Lemma chunks_nth d i j :
  (forall k, k < d -> List.length (f k) = n) ->
  i < d -> j < n ->
  nth_error (flat_map f (seq 0 d)) (i * n + j) = nth_error (f i) j.
Proof.
  induction d as [|d IH]; intros Hlen Hi Hj.
  - lia.
  - rewrite seq_S, flat_map_app. cbn [flat_map Nat.add]. rewrite app_nil_r.
    assert (Hd : List.length (flat_map f (seq 0 d)) = d * n)
      by (apply chunks_length; auto with arith).
    destruct (Nat.eq_dec i d) as [->|Hne].
    + rewrite nth_error_app2 by lia. f_equal. lia.
    + rewrite nth_error_app1 by nia. apply IH; auto with arith. lia.
Qed.

End Chunks.

Lemma flat_map_pointwise {A B} (f g : A -> list B) l :
  (forall x, In x l -> f x = g x) -> flat_map f l = flat_map g l.
Proof.
  induction l as [|x l IH]; intros H; cbn.
  - reflexivity.
  - rewrite H, IH; auto with datatypes.
Qed.

Lemma map_flat_map {A B C} (g : B -> C) (f : A -> list B) l :
  map g (flat_map f l) = flat_map (fun x => map g (f x)) l.
Proof.
  induction l as [|x l IH]; cbn.
  - reflexivity.
  - now rewrite map_app, IH.
Qed.

(** ** The raster of an image *)

Section Raster.

Context {A : Type}.
Variable f : nat -> nat -> nat -> A.
Variables w h nb : nat.

Lemma raster_row_length y :
  List.length (flat_map (fun x => map (fun b => f x y b) (seq 0 nb)) (seq 0 w))
  = w * nb.
Proof.
  apply chunks_length. intros. now rewrite length_map, length_seq.
Qed.

Lemma raster_length : List.length (raster w h nb f) = h * (w * nb).
Proof.
  unfold raster. apply chunks_length. intros. apply raster_row_length.
Qed.

(** Sample [b] of pixel [(x, y)] sits at [(y * w + x) * nb + b]. *)
Lemma raster_nth x y b :
  x < w -> y < h -> b < nb ->
  nth_error (raster w h nb f) (y * (w * nb) + (x * nb + b)) = Some (f x y b).
Proof.
  intros Hx Hy Hb. unfold raster.
  rewrite (chunks_nth _ (w * nb)); auto using raster_row_length.
  - rewrite (chunks_nth _ nb); auto.
    + rewrite nth_error_map, nth_error_seq.
      apply Nat.ltb_lt in Hb. now rewrite Hb.
    + intros. now rewrite length_map, length_seq.
  - nia.
Qed.

End Raster.

(** ** Views *)

Lemma radix_lt i d j n : i < d -> j < n -> i * n + j < d * n.
Proof. nia. Qed.

Ltac radix := repeat (apply radix_lt; [assumption |]); lia.

Lemma walk_scalar b off v :
  nth_error b off = Some v -> walk [] b off = [v].
Proof. intros H. cbn. now rewrite H. Qed.

Lemma walk_cons d s rest b off :
  walk ((d, s) :: rest) b off
  = flat_map (fun i => walk rest b (off + i * s)) (seq 0 d).
Proof. reflexivity. Qed.

Lemma walk_cons_length d s rest b off n :
  (forall i, i < d -> List.length (walk rest b (off + i * s)) = n) ->
  List.length (walk ((d, s) :: rest) b off) = d * n.
Proof. intros H. cbn [walk]. now apply chunks_length. Qed.

Lemma walk_cons_nth d s rest b off n i j :
  (forall k, k < d -> List.length (walk rest b (off + k * s)) = n) ->
  i < d -> j < n ->
  nth_error (walk ((d, s) :: rest) b off) (i * n + j)
  = nth_error (walk rest b (off + i * s)) j.
Proof.
  intros H Hi Hj. cbn [walk].
  now apply (chunks_nth (fun k => walk rest b (off + k * s)) n d i j).
Qed.

Lemma in_bounds_value {A} (l : list A) k :
  k < List.length l -> exists v, nth_error l k = Some v.
Proof.
  intros H. destruct (nth_error l k) eqn:E; eauto.
  apply nth_error_None in E. lia.
Qed.

(** A view of four axes all of whose cells lie inside the buffer. *)
Section FourAxes.

Variable t : ndarray.
Variables n0 s0 n1 s1 n2 s2 n3 s3 : nat.
Hypothesis Hdims : dims t = [(n0, s0); (n1, s1); (n2, s2); (n3, s3)].
Hypothesis Hin : forall b c h x, b < n0 -> c < n1 -> h < n2 -> x < n3 ->
  offset t + b * s0 + c * s1 + h * s2 + x * s3 < List.length (buf t).

Lemma get_four b c h x :
  b < n0 -> c < n1 -> h < n2 -> x < n3 ->
  get t [b; c; h; x]
  = nth_error (buf t) (offset t + b * s0 + c * s1 + h * s2 + x * s3).
Proof.
  intros Hb Hc Hh Hx. unfold get, shape, strides. rewrite Hdims.
  cbn [map fst snd in_shape dot].
  apply Nat.ltb_lt in Hb, Hc, Hh, Hx. rewrite Hb, Hc, Hh, Hx.
  cbn [andb]. f_equal. lia.
Qed.

Lemma walk_axis3 b c h :
  b < n0 -> c < n1 -> h < n2 ->
  List.length (walk [(n3, s3)] (buf t) (offset t + b * s0 + c * s1 + h * s2))
  = n3 * 1.
Proof.
  intros Hb Hc Hh. apply walk_cons_length. intros x Hx.
  destruct (in_bounds_value (buf t) _ (Hin b c h x Hb Hc Hh Hx)) as [v Hv].
  now rewrite (walk_scalar _ _ v).
Qed.

Lemma walk_axis2 b c :
  b < n0 -> c < n1 ->
  List.length (walk [(n2, s2); (n3, s3)] (buf t) (offset t + b * s0 + c * s1))
  = n2 * (n3 * 1).
Proof. intros. apply walk_cons_length. intros. now apply walk_axis3. Qed.

Lemma walk_axis1 b :
  b < n0 ->
  List.length (walk [(n1, s1); (n2, s2); (n3, s3)] (buf t) (offset t + b * s0))
  = n1 * (n2 * (n3 * 1)).
Proof. intros. apply walk_cons_length. intros. now apply walk_axis2. Qed.

Lemma ravel_length : List.length (ravel t) = n0 * (n1 * (n2 * (n3 * 1))).
Proof.
  unfold ravel. rewrite Hdims. apply walk_cons_length. intros.
  now apply walk_axis1.
Qed.

(** Row-major order: the element of index [(b, c, h, x)] is the one
    at position [((b * n1 + c) * n2 + h) * n3 + x] of the ravel. *)
Lemma ravel_nth b c h x :
  b < n0 -> c < n1 -> h < n2 -> x < n3 ->
  nth_error (ravel t) (((b * n1 + c) * n2 + h) * n3 + x) = get t [b; c; h; x].
Proof.
  intros Hb Hc Hh Hx. rewrite get_four by assumption.
  replace (((b * n1 + c) * n2 + h) * n3 + x)
    with (b * (n1 * (n2 * (n3 * 1))) + (c * (n2 * (n3 * 1)) + (h * (n3 * 1) + (x * 1 + 0))))
    by nia.
  unfold ravel. rewrite Hdims.
  rewrite walk_cons_nth; [| intros; now apply walk_axis1 | assumption | radix].
  rewrite walk_cons_nth; [| intros; now apply walk_axis2 | assumption | radix].
  rewrite walk_cons_nth; [| intros; now apply walk_axis3 | assumption | radix].
  destruct (in_bounds_value (buf t) _ (Hin b c h x Hb Hc Hh Hx)) as [v Hv].
  rewrite (walk_cons_nth _ _ _ _ _ 1); [| | assumption | lia].
  - now rewrite (walk_scalar _ _ v Hv), Hv.
  - intros k Hk.
    destruct (in_bounds_value (buf t) _ (Hin b c h k Hb Hc Hh Hk)) as [u Hu].
    now rewrite (walk_scalar _ _ u).
Qed.

End FourAxes.

(** ** Statements *)

Lemma emit_nil s : emit [] s = s.
Proof. destruct s. unfold emit. cbn. now rewrite app_nil_r. Qed.

Lemma emit_emit l1 l2 s : emit l2 (emit l1 s) = emit (l1 ++ l2) s.
Proof. unfold emit. cbn. now rewrite app_assoc. Qed.

Lemma for_each_emits {A} (xs : list A) (body : A -> Run unit)
  (g : A -> list string) w :
  (forall x s, In x xs -> body x w s = (emit (g x) s, OK tt)) ->
  forall s, for_each xs body w s = (emit (flat_map g xs) s, OK tt).
Proof.
  induction xs as [|x xs IH]; intros Hbody s; cbn [for_each flat_map].
  - unfold ret. now rewrite emit_nil.
  - unfold bind. rewrite Hbody by auto with datatypes. cbn.
    rewrite IH by auto with datatypes. now rewrite emit_emit.
Qed.

(** A loop over an array of at least two axes runs its body on each row. *)
Lemma for_in_rows a d st r rest (body : item -> Run unit) g w :
  dims a = (d, st) :: r :: rest ->
  (forall i s, i < d ->
     body (Arr {| dims := r :: rest; offset := offset a + i * st; buf := buf a |}) w s
     = (emit (g i) s, OK tt)) ->
  forall s, for_in (Arr a) body w s = (emit (flat_map g (seq 0 d)) s, OK tt).
Proof.
  intros Hd Hbody s. unfold for_in. rewrite Hd.
  apply for_each_emits. intros i s' Hi. apply in_seq in Hi.
  unfold bind, lift, subitem. apply Hbody. lia.
Qed.

(** A loop over a one-axis array runs its body on each scalar. *)
Lemma for_in_scalars a d st (body : item -> Run unit) g w :
  dims a = [(d, st)] ->
  (forall i, i < d -> offset a + i * st < List.length (buf a)) ->
  (forall v s, body (Scalar v) w s = (emit [g v] s, OK tt)) ->
  forall s, for_in (Arr a) body w s
            = (emit (map g (walk [(d, st)] (buf a) (offset a))) s, OK tt).
Proof.
  intros Hd Hin Hbody s. unfold for_in. rewrite Hd. cbn [walk].
  rewrite map_flat_map. apply for_each_emits. intros i s' Hi.
  apply in_seq in Hi.
  destruct (in_bounds_value (buf a) (offset a + i * st)) as [v Hv].
  { apply Hin. lia. }
  unfold bind, lift, subitem. rewrite Hv. cbn. apply Hbody.
Qed.

Section PrintLoop.

Variable str_float32 : float32 -> string.
Variable str_ndarray : ndarray -> string.

Variable t : ndarray.
Variables n0 s0 n1 s1 n2 s2 n3 s3 : nat.
Hypothesis Hdims : dims t = [(n0, s0); (n1, s1); (n2, s2); (n3, s3)].
Hypothesis Hin : forall b c h x, b < n0 -> c < n1 -> h < n2 -> x < n3 ->
  offset t + b * s0 + c * s1 + h * s2 + x * s3 < List.length (buf t).

(** Lines 16 to 20 print the ravel of a four-axis array, one scalar a line. *)
Lemma print_loop_emits w s :
  for_in (Arr t) (fun a =>
    for_in a (fun b =>
      for_in b (fun c =>
        for_in c (fun d =>
          print ("    " ++ str str_float32 str_ndarray d ++ ",")%string)))) w s
  = (emit (map (fun v => ("    " ++ str_float32 v ++ ",")%string) (ravel t)) s,
     OK tt).
Proof.
  unfold ravel. rewrite Hdims. rewrite walk_cons, map_flat_map.
  apply (for_in_rows t n0 s0 (n1, s1) [(n2, s2); (n3, s3)]); [assumption |].
  intros b sb Hb. rewrite walk_cons, map_flat_map.
  apply (for_in_rows _ n1 s1 (n2, s2) [(n3, s3)]); [reflexivity |].
  intros c sc Hc. cbn [offset buf]. rewrite walk_cons, map_flat_map.
  apply (for_in_rows _ n2 s2 (n3, s3) []); [reflexivity |].
  intros h sh Hh. cbn [offset buf].
  apply (for_in_scalars
           (mkArr [(n3, s3)] (offset t + b * s0 + c * s1 + h * s2) (buf t))
           n3 s3); [reflexivity | | reflexivity].
  intros x Hx. cbn [offset buf]. now apply Hin.
Qed.

End PrintLoop.

(** ** The stages of [preprocess] *)

Lemma np_array_dims img :
  bands (im_mode img) <> 1 ->
  dims (np_array img)
  = [(height img, width img * (bands (im_mode img) * 1));
     (width img, bands (im_mode img) * 1);
     (bands (im_mode img), 1)].
Proof.
  intros H. unfold np_array, array_shape. cbn [dims].
  apply Nat.eqb_neq in H. now rewrite H.
Qed.

Lemma np_array_dims_single img :
  bands (im_mode img) = 1 ->
  dims (np_array img) = [(height img, width img * 1); (width img, 1)].
Proof.
  intros H. unfold np_array, array_shape. cbn [dims].
  apply Nat.eqb_eq in H. now rewrite H.
Qed.

Lemma np_array_ndim img :
  ndim (np_array img) = if bands (im_mode img) =? 1 then 2 else 3.
Proof.
  unfold ndim, np_array, array_shape. cbn [dims].
  now destruct (bands (im_mode img) =? 1).
Qed.

Lemma tensor_of_array_3d a d0 s0 d1 s1 d2 s2 :
  dims a = [(d0, s0); (d1, s1); (d2, s2)] ->
  tensor_of_array a
  = OK {| dims := [(1, 0); (Nat.min 3 d2, s2); (d0, s0); (d1, s1)];
          offset := offset a;
          buf := buf a |}.
Proof.
  intros Hd. unfold tensor_of_array, transpose, ndim. rewrite Hd. cbn.
  unfold getitem, ndim. cbn. now rewrite !Nat.sub_0_r, !Nat.add_0_r.
Qed.

Lemma transpose_wrong_rank a :
  ndim a <> 3 ->
  transpose a [2; 0; 1] = raise (ValueError "axes don't match array").
Proof.
  intros H. unfold transpose. cbn [List.length].
  apply Nat.eqb_neq in H. rewrite Nat.eqb_sym in H. now rewrite H.
Qed.

Lemma tensor_of_array_wrong_rank a :
  ndim a <> 3 ->
  tensor_of_array a = raise (ValueError "axes don't match array").
Proof.
  intros H. unfold tensor_of_array. now rewrite transpose_wrong_rank.
Qed.

Lemma tensor_of_array_np_array img :
  bands (im_mode img) <> 1 ->
  tensor_of_array (np_array img) = OK (chw_view img).
Proof.
  intros H. now rewrite (tensor_of_array_3d _ _ _ _ _ _ _ (np_array_dims img H)).
Qed.

(** Every cell of the view lies inside the buffer. *)
Lemma chw_view_in_bounds img b c h x :
  b < 1 -> c < Nat.min 3 (bands (im_mode img)) -> h < height img -> x < width img ->
  offset (chw_view img) + b * 0 + c * 1
    + h * (width img * (bands (im_mode img) * 1)) + x * (bands (im_mode img) * 1)
  < List.length (buf (chw_view img)).
Proof.
  intros Hb Hc Hh Hx. unfold chw_view, np_array. cbn [offset buf].
  rewrite length_map, raster_length.
  assert (c < bands (im_mode img)) by lia.
  set (C := bands (im_mode img)) in *. set (W := width img) in *.
  set (H' := height img) in *.
  assert (x * C + c < W * C) by (apply radix_lt; assumption).
  assert (h * (W * C) + (x * C + c) < H' * (W * C)) by (apply radix_lt; assumption).
  lia.
Qed.

(** The cell [(0, c, h, x)] of the view is sample [c] of pixel [(x, h)]:
  the cell [(h, x, c)] of the array the view was made of. *)
Lemma chw_view_get img c h x :
  c < Nat.min 3 (bands (im_mode img)) -> h < height img -> x < width img ->
  get (chw_view img) [0; c; h; x] = Some (F32.of_uint8 (getpixel img x h c)).
Proof.
  intros Hc Hh Hx.
  rewrite (get_four (chw_view img) _ _ _ _ _ _ _ _ eq_refl) by (assumption || lia).
  unfold chw_view, np_array. cbn [offset buf].
  rewrite nth_error_map.
  replace (0 + 0 * 0 + c * 1
           + h * (width img * (bands (im_mode img) * 1))
           + x * (bands (im_mode img) * 1))
    with (h * (width img * bands (im_mode img)) + (x * bands (im_mode img) + c))
    by lia.
  rewrite raster_nth by (assumption || lia). reflexivity.
Qed.

Lemma np_array_get img c h x :
  bands (im_mode img) <> 1 ->
  c < bands (im_mode img) -> h < height img -> x < width img ->
  get (np_array img) [h; x; c] = Some (F32.of_uint8 (getpixel img x h c)).
Proof.
  intros Hm Hc Hh Hx. unfold get, shape, strides.
  rewrite (np_array_dims img Hm). cbn [map fst snd in_shape dot].
  apply Nat.ltb_lt in Hc as Hc', Hh as Hh', Hx as Hx'.
  rewrite Hc', Hh', Hx'. cbn [andb].
  unfold np_array. cbn [offset buf]. rewrite nth_error_map.
  replace (0 + (h * (width img * (bands (im_mode img) * 1))
                + (x * (bands (im_mode img) * 1) + (c * 1 + 0))))
    with (h * (width img * bands (im_mode img)) + (x * bands (im_mode img) + c))
    by lia.
  rewrite raster_nth by assumption. reflexivity.
Qed.

(** The cast of a uint8 sample is exact. *)
Lemma of_uint8_exact b :
  F32.value (F32.of_uint8 b) = Some (inject_Z (Z.of_N (Byte.to_N b))).
Proof. destruct b; vm_compute; reflexivity. Qed.

Lemma shape_np_array img : shape (np_array img) = array_shape img.
Proof.
  unfold shape, np_array, array_shape. cbn [dims].
  now destruct (bands (im_mode img) =? 1).
Qed.

Lemma shape_chw_view img :
  shape (chw_view img)
  = [1; Nat.min 3 (bands (im_mode img)); height img; width img].
Proof. reflexivity. Qed.

Section Pipeline.

Variable decode : list byte -> result Image.
Variable resample :
  filter -> Image -> nat * nat -> result (nat -> nat -> nat -> byte).
Variable str_float32 : float32 -> string.
Variable str_ndarray : ndarray -> string.

Local Notation resize := (resize resample).
Local Notation tensor_of_image := (tensor_of_image resample).
Local Notation preprocess := (preprocess decode resample).
Local Notation script := (script decode resample str_float32 str_ndarray).
Local Notation run := (run decode resample str_float32 str_ndarray).
Local Notation fails := (fails decode resample).

(** The process once [path] was handed to [Image.open]. *)
Local Notation after_open path s :=
  {| opened := opened s ++ [path]; stdout := stdout s |}.

Lemma resize_returns img size flt r :
  resize img size flt = OK r ->
  im_size r = size /\ im_mode r = im_mode img /\
  resample flt img size = OK (getpixel r).
Proof.
  unfold resize. destruct (resample flt img size) as [e|px]; [discriminate |].
  cbn [rbind]. intros H. inversion H. auto.
Qed.

Lemma resize_raises img size flt e :
  resize img size flt = raise e <-> resample flt img size = raise e.
Proof.
  unfold resize. destruct (resample flt img size) as [e'|px]; cbn [rbind].
  - unfold raise. split; intros H; inversion H; reflexivity.
  - split; discriminate.
Qed.

Lemma resize_224 img r :
  resize img (224, 224) BILINEAR = OK r ->
  width r = 224 /\ height r = 224 /\ bands (im_mode r) = bands (im_mode img).
Proof.
  intros H. apply resize_returns in H. destruct H as (Hs & Hm & _).
  unfold width, height. now rewrite Hs, Hm.
Qed.

Lemma preprocess_steps path w s :
  preprocess path w s
  = (after_open path s,
     match files w path with
     | None => raise (IOError "No such file or directory")
     | Some bytes => img <-- decode bytes ;;; tensor_of_image img
     end).
Proof.
  unfold preprocess, bind, Image_open.
  destruct (files w path) as [bytes|]; [| reflexivity].
  destruct (decode bytes) as [e|img]; [reflexivity |].
  unfold lift, ret. cbn [rbind]. unfold tensor_of_image.
  destruct (resize img (224, 224) BILINEAR) as [e|r]; [reflexivity |].
  unfold tensor_of_array, rbind, OK.
  destruct (transpose (np_array r) [2; 0; 1]) as [e|a1]; [reflexivity |].
  destruct (expand_dims a1 0) as [e|a2]; [reflexivity |].
  now destruct (getitem a2 _).
Qed.

Lemma preprocess_decoded path w s bytes img r :
  files w path = Some bytes ->
  decode bytes = OK img ->
  resize img (224, 224) BILINEAR = OK r ->
  preprocess path w s = (after_open path s, tensor_of_array (np_array r)).
Proof.
  intros Hf Hd Hr. rewrite preprocess_steps, Hf, Hd. unfold OK at 1.
  cbn [rbind]. unfold tensor_of_image. now rewrite Hr.
Qed.

(** Whenever [preprocess] returns, it returns the view of a resized
    image of several bands. *)
Lemma preprocess_returns path w s s' t :
  preprocess path w s = (s', OK t) ->
  exists bytes img r,
    files w path = Some bytes /\ decode bytes = OK img /\
    resize img (224, 224) BILINEAR = OK r /\
    bands (im_mode r) <> 1 /\
    s' = after_open path s /\ t = chw_view r.
Proof.
  rewrite preprocess_steps. intros H. inversion H as [[Hs Ht]]. clear H.
  destruct (files w path) as [bytes|]; [| discriminate].
  destruct (decode bytes) as [e|img] eqn:Hd; [discriminate |].
  cbn [rbind] in Ht. unfold tensor_of_image in Ht.
  destruct (resize img (224, 224) BILINEAR) as [e|r] eqn:Hr; [discriminate |].
  cbn [rbind] in Ht.
  assert (Hb : bands (im_mode r) <> 1).
  { intros Hb. rewrite tensor_of_array_wrong_rank in Ht; [discriminate |].
    rewrite np_array_ndim, Hb. cbn. lia. }
  rewrite tensor_of_array_np_array in Ht by assumption.
  exists bytes, img, r. inversion Ht. auto 6.
Qed.

(** ** The tensor [preprocess] returns *)

(** C1: for every file that decodes to an RGB or RGBA image which PIL
    resizes, whatever its resolution, [preprocess] returns a tensor of
    shape (1, 3, 224, 224). *)
Theorem preprocess_shape path w s bytes img r :
  files w path = Some bytes ->
  decode bytes = OK img ->
  resize img (224, 224) BILINEAR = OK r ->
  im_mode img = RGB \/ im_mode img = RGBA ->
  exists t,
    preprocess path w s = (after_open path s, OK t) /\
    shape t = [1; 3; 224; 224].
Proof.
  intros Hf Hd Hr Hm. destruct (resize_224 _ _ Hr) as (Hw & Hh & Hb).
  exists (chw_view r). split.
  - rewrite (preprocess_decoded _ _ _ _ _ _ Hf Hd Hr).
    rewrite tensor_of_array_np_array; [reflexivity |].
    rewrite Hb. destruct Hm as [-> | ->]; discriminate.
  - rewrite shape_chw_view, Hw, Hh, Hb.
    destruct Hm as [-> | ->]; reflexivity.
Qed.

(** C2: for a decoded and resized image [r] of at least three bands, the
    element (0, c, h, w) of the returned tensor, c < 3, h < 224, w < 224,
    is the element (h, w, c) of the array of [r], that is sample c of its
    pixel in column w of row h: channel-last became channel-first behind
    a batch axis, and bands beyond the third are gone. *)
Theorem preprocess_layout path w s bytes img r :
  files w path = Some bytes ->
  decode bytes = OK img ->
  resize img (224, 224) BILINEAR = OK r ->
  3 <= bands (im_mode r) ->
  exists t,
    preprocess path w s = (after_open path s, OK t) /\
    shape t = [1; 3; 224; 224] /\
    forall c h x, c < 3 -> h < 224 -> x < 224 ->
      get t [0; c; h; x] = get (np_array r) [h; x; c] /\
      get t [0; c; h; x] = Some (F32.of_uint8 (getpixel r x h c)).
Proof.
  intros Hf Hd Hr Hb. destruct (resize_224 _ _ Hr) as (Hw & Hh & _).
  exists (chw_view r).
  assert (Hne : bands (im_mode r) <> 1) by lia.
  split; [| split].
  - rewrite (preprocess_decoded _ _ _ _ _ _ Hf Hd Hr).
    now rewrite tensor_of_array_np_array.
  - rewrite shape_chw_view, Hw, Hh. now rewrite Nat.min_l by assumption.
  - intros c h x Hc Hh' Hx.
    rewrite chw_view_get, np_array_get; rewrite ?Hw, ?Hh; auto; lia.
Qed.

(** C4: every value of the returned tensor is the float32 a sample of
    the resized image was cast to, and stands for exactly the integer of
    that sample: nothing is scaled, shifted or divided on the way. *)
Theorem tensor_values_exact path w s s' t :
  preprocess path w s = (s', OK t) ->
  exists bytes img r,
    files w path = Some bytes /\ decode bytes = OK img /\
    resize img (224, 224) BILINEAR = OK r /\
    forall b c h x, in_shape [b; c; h; x] (shape t) = true ->
      exists v,
        get t [b; c; h; x] = Some v /\
        v = F32.of_uint8 (getpixel r x h c) /\
        F32.value v = Some (inject_Z (Z.of_N (Byte.to_N (getpixel r x h c)))).
Proof.
  intros H. apply preprocess_returns in H.
  destruct H as (bytes & img & r & Hf & Hd & Hr & Hb & _ & ->).
  exists bytes, img, r. repeat split; try assumption.
  intros b c h x Hin. rewrite shape_chw_view in Hin. cbn [in_shape] in Hin.
  rewrite !andb_true_iff, !Nat.ltb_lt in Hin.
  destruct Hin as (Hb0 & Hc & Hh & Hx & _).
  assert (b = 0) by lia. subst b.
  exists (F32.of_uint8 (getpixel r x h c)).
  split; [| split].
  - now apply chw_view_get.
  - reflexivity.
  - apply of_uint8_exact.
Qed.

(** C9: when the array of the decoded and resized image has three axes
    and C < 3 channels, slicing the channels 0:3 does not raise:
    [preprocess] returns a tensor of shape (1, C, 224, 224). *)
Theorem preprocess_few_channels path w s bytes img r C :
  files w path = Some bytes ->
  decode bytes = OK img ->
  resize img (224, 224) BILINEAR = OK r ->
  shape (np_array r) = [224; 224; C] ->
  C < 3 ->
  exists a1 a2 t,
    transpose (np_array r) [2; 0; 1] = OK a1 /\
    expand_dims a1 0 = OK a2 /\
    getitem a2 [Slice None None; Slice (Some 0) (Some 3);
                Slice None None; Slice None None] = OK t /\
    preprocess path w s = (after_open path s, OK t) /\
    shape t = [1; C; 224; 224].
Proof.
  intros Hf Hd Hr Hs HC. destruct (resize_224 _ _ Hr) as (Hw & Hh & _).
  rewrite shape_np_array in Hs. unfold array_shape in Hs.
  destruct (bands (im_mode r) =? 1) eqn:Hb; [discriminate |].
  apply Nat.eqb_neq in Hb. injection Hs as _ _ HCb.
  pose proof (np_array_dims r Hb) as Hdims.
  exists {| dims := [(bands (im_mode r), 1);
                     (height r, width r * (bands (im_mode r) * 1));
                     (width r, bands (im_mode r) * 1)];
            offset := 0; buf := buf (np_array r) |}.
  exists {| dims := [(1, 0); (bands (im_mode r), 1);
                     (height r, width r * (bands (im_mode r) * 1));
                     (width r, bands (im_mode r) * 1)];
            offset := 0; buf := buf (np_array r) |}.
  exists (chw_view r).
  split; [| split; [| split; [| split]]].
  - unfold transpose, ndim. rewrite Hdims. reflexivity.
  - reflexivity.
  - unfold getitem, ndim, chw_view. cbn [dims List.length offset buf].
    cbn [Nat.ltb Nat.leb slice_axes slice_lo slice_hi].
    now rewrite !Nat.sub_0_r.
  - rewrite (preprocess_decoded _ _ _ _ _ _ Hf Hd Hr).
    now rewrite tensor_of_array_np_array.
  - rewrite shape_chw_view, Hw, Hh, HCb.
    now rewrite (Nat.min_r 3 C) by lia.
Qed.

(** C10: when the array of the decoded and resized image has two axes (a
    single-band image of shape (224, 224), no channel axis), the
    transposition to axes (2, 0, 1) raises, axis 2 not being there, and
    so does [preprocess]: no tensor comes back. *)
Theorem preprocess_grayscale path w s bytes img r :
  files w path = Some bytes ->
  decode bytes = OK img ->
  resize img (224, 224) BILINEAR = OK r ->
  ndim (np_array r) = 2 ->
  shape (np_array r) = [224; 224] /\
  transpose (np_array r) [2; 0; 1]
  = raise (ValueError "axes don't match array") /\
  preprocess path w s
  = (after_open path s, raise (ValueError "axes don't match array")) /\
  forall s' t, preprocess path w s <> (s', OK t).
Proof.
  intros Hf Hd Hr Hn. destruct (resize_224 _ _ Hr) as (Hw & Hh & _).
  assert (Hr3 : ndim (np_array r) <> 3) by lia.
  rewrite np_array_ndim in Hn.
  destruct (bands (im_mode r) =? 1) eqn:Hb; [| discriminate].
  assert (Hp : preprocess path w s
               = (after_open path s, raise (ValueError "axes don't match array"))).
  { rewrite (preprocess_decoded _ _ _ _ _ _ Hf Hd Hr).
    now rewrite tensor_of_array_wrong_rank. }
  split; [| split; [| split]].
  - rewrite shape_np_array. unfold array_shape. now rewrite Hb, Hw, Hh.
  - now apply transpose_wrong_rank.
  - exact Hp.
  - intros s' t. rewrite Hp. discriminate.
Qed.

(** ** The run of the script *)

Lemma script_raises path w s s' e :
  preprocess path w s = (s', raise e) ->
  script path w s = (s', raise e).
Proof.
  intros H. unfold script, bind. now rewrite H.
Qed.

Lemma script_prints path w s s' t :
  preprocess path w s = (s', OK t) ->
  script path w s
  = (emit ("std::vector<float> mushroom = {"
           :: map (fun v => ("    " ++ str_float32 v ++ ",")%string) (ravel t)
           ++ ["};"]) s',
     OK tt).
Proof.
  intros H. pose proof (preprocess_returns _ _ _ _ _ H) as Hr.
  destruct Hr as (bytes & img & r & _ & _ & _ & _ & _ & ->).
  unfold script. unfold bind at 1. rewrite H. unfold OK at 1.
  unfold bind at 1. unfold print at 1. unfold OK at 1. cbn beta iota.
  unfold bind at 1.
  rewrite (print_loop_emits str_float32 str_ndarray (chw_view r)
             _ _ _ _ _ _ _ _ eq_refl (chw_view_in_bounds r)).
  unfold print. rewrite !emit_emit. reflexivity.
Qed.

(** C3: on a file that decodes to an RGB or RGBA image which PIL resizes,
    the script prints, between the opening and the closing line,
    1 x 3 x 224 x 224 = 150,528 lines, one for each element of the tensor. *)
Theorem run_line_count w bytes img r :
  files w "cheetah.png" = Some bytes ->
  decode bytes = OK img ->
  resize img (224, 224) BILINEAR = OK r ->
  im_mode img = RGB \/ im_mode img = RGBA ->
  exists t body,
    preprocess "cheetah.png" w start = (after_open "cheetah.png" start, OK t) /\
    run w = ({| opened := ["cheetah.png"];
                stdout := "std::vector<float> mushroom = {" :: body ++ ["};"] |},
             OK tt) /\
    List.length body = List.length (ravel t) /\
    Z.of_nat (List.length body) = (1 * 3 * 224 * 224)%Z /\
    Z.of_nat (List.length body) = 150528%Z.
Proof.
  intros Hf Hd Hr Hm. destruct (resize_224 _ _ Hr) as (Hw & Hh & Hbands).
  assert (Hb : bands (im_mode r) <> 1).
  { rewrite Hbands. destruct Hm as [-> | ->]; discriminate. }
  assert (Hp : preprocess "cheetah.png" w start
               = (after_open "cheetah.png" start, OK (chw_view r))).
  { rewrite (preprocess_decoded _ _ _ _ _ _ Hf Hd Hr).
    now rewrite tensor_of_array_np_array. }
  exists (chw_view r).
  exists (map (fun v => ("    " ++ str_float32 v ++ ",")%string)
            (ravel (chw_view r))).
  assert (Hlen : List.length (ravel (chw_view r))
                 = 1 * (Nat.min 3 (bands (im_mode r)) * (height r * (width r * 1)))).
  { apply (ravel_length (chw_view r) _ _ _ _ _ _ _ _ eq_refl).
    apply chw_view_in_bounds. }
  assert (Hmin : Nat.min 3 (bands (im_mode r)) = 3)
    by (rewrite Hbands; destruct Hm as [-> | ->]; reflexivity).
  rewrite Hmin, Hw, Hh in Hlen.
  split; [exact Hp | split; [| split; [| split]]].
  - unfold run, main. rewrite (script_prints _ _ _ _ _ Hp). reflexivity.
  - now rewrite length_map.
  - rewrite length_map, Hlen. lia.
  - rewrite length_map, Hlen. lia.
Qed.

(** C5, as amended: on every run in which [preprocess] returns a tensor,
    whatever the path it was given, standard output is the line
    [std::vector<float> mushroom = {], then for each scalar of the tensor
    four spaces, its text and a comma, then the line [};]; the scalar of
    index (b, c, h, w) of a tensor of shape (n0, n1, n2, n3) is on line
    ((b * n1 + c) * n2 + h) * n3 + w of these, the row-major order of
    (batch, channel, row, column). *)
Theorem script_output path w s s' t :
  preprocess path w s = (s', OK t) ->
  script path w s
  = (emit ("std::vector<float> mushroom = {"
           :: map (fun v => ("    " ++ str_float32 v ++ ",")%string) (ravel t)
           ++ ["};"]) s',
     OK tt) /\
  exists n0 n1 n2 n3,
    shape t = [n0; n1; n2; n3] /\
    List.length (ravel t) = n0 * n1 * n2 * n3 /\
    forall b c h x, b < n0 -> c < n1 -> h < n2 -> x < n3 ->
      exists v,
        get t [b; c; h; x] = Some v /\
        nth_error (ravel t) (((b * n1 + c) * n2 + h) * n3 + x) = Some v.
Proof.
  intros H. split; [now apply script_prints |].
  apply preprocess_returns in H.
  destruct H as (bytes & img & r & _ & _ & _ & _ & _ & ->).
  exists 1, (Nat.min 3 (bands (im_mode r))), (height r), (width r).
  split; [reflexivity | split].
  - rewrite (ravel_length (chw_view r) _ _ _ _ _ _ _ _ eq_refl).
    + lia.
    + apply chw_view_in_bounds.
  - intros b c h x Hb Hc Hh Hx.
    exists (F32.of_uint8 (getpixel r x h c)).
    assert (b = 0) by lia. subst b.
    rewrite (ravel_nth (chw_view r) _ _ _ _ _ _ _ _ eq_refl
               (chw_view_in_bounds r)) by (assumption || lia).
    split; now apply chw_view_get.
Qed.

Lemma preprocess_same_file path w1 w2 s :
  files w1 path = files w2 path ->
  preprocess path w1 s = preprocess path w2 s.
Proof. intros H. now rewrite !preprocess_steps, H. Qed.

Lemma script_same_file path w1 w2 s :
  files w1 path = files w2 path ->
  script path w1 s = script path w2 s.
Proof.
  intros H. pose proof (preprocess_same_file path w1 w2 s H) as Hp.
  destruct (preprocess path w2 s) as [s' [e|t]] eqn:E.
  - rewrite (script_raises _ _ _ _ _ Hp), (script_raises _ _ _ _ _ E).
    reflexivity.
  - rewrite (script_prints _ _ _ _ _ Hp), (script_prints _ _ _ _ _ E).
    reflexivity.
Qed.

(** C7: with the libraries fixed, two runs that find the same bytes in
    [cheetah.png] end alike, with the same standard output, whatever else
    differs around them (other files, environment, clock, entropy). *)
Theorem run_deterministic w1 w2 :
  files w1 "cheetah.png" = files w2 "cheetah.png" ->
  run w1 = run w2 /\ stdout (fst (run w1)) = stdout (fst (run w2)).
Proof.
  intros H. assert (E : run w1 = run w2) by now apply script_same_file.
  split; [exact E | now rewrite E].
Qed.

(** C8: when decoding, resizing or an array operation raises [e], the run
    ends with [e] itself, after one call of [Image.open] and with nothing
    on standard output. *)
Theorem run_fails w e :
  fails w "cheetah.png" e ->
  run w = ({| opened := ["cheetah.png"]; stdout := [] |}, raise e).
Proof.
  intros H. unfold run, main. apply script_raises.
  rewrite preprocess_steps.
  destruct H as [Hf He | bytes Hf Hd | bytes img Hf Hd Hr | bytes img img' Hf Hd Hr Ha];
    rewrite Hf.
  - now rewrite He.
  - now rewrite Hd.
  - rewrite Hd. unfold OK at 1. cbn [rbind]. unfold tensor_of_image.
    now rewrite Hr.
  - rewrite Hd. unfold OK at 1. cbn [rbind]. unfold tensor_of_image.
    rewrite Hr. unfold OK at 1. cbn [rbind]. now rewrite Ha.
Qed.

End Pipeline.

(** * The script on concrete files *)

Module Runs.

Import Demo.

Local Notation preprocess := (preprocess decode resample).
Local Notation resize := (resize resample).
Local Notation script := (script decode resample str_float32 str_ndarray).
Local Notation run := (run decode resample str_float32 str_ndarray).

(** The 2x1 RGBA picture gives a tensor of shape (1, 3, 224, 224). *)
Lemma preprocess_shape_rgba :
  exists bytes img r,
    files rgba_world "cheetah.png" = Some bytes /\
    decode bytes = OK img /\
    resize img (224, 224) BILINEAR = OK r /\
    im_mode img = RGBA /\
    exists t,
      preprocess "cheetah.png" rgba_world start
      = ({| opened := ["cheetah.png"]; stdout := [] |}, OK t) /\
      shape t = [1; 3; 224; 224].
Proof.
  eexists. eexists. eexists.
  split; [reflexivity | split; [reflexivity | split; [reflexivity | split]]].
  - reflexivity.
  - eapply (preprocess_shape decode resample "cheetah.png" rgba_world start).
    + reflexivity.
    + reflexivity.
    + reflexivity.
    + right. reflexivity.
Defined.

(** The layout of the tensor of the 2x1 RGBA picture. *)
Lemma preprocess_layout_rgba :
  exists bytes img r,
    files rgba_world "cheetah.png" = Some bytes /\
    decode bytes = OK img /\
    resize img (224, 224) BILINEAR = OK r /\
    3 <= bands (im_mode r) /\
    exists t,
      preprocess "cheetah.png" rgba_world start
      = ({| opened := ["cheetah.png"]; stdout := [] |}, OK t) /\
      shape t = [1; 3; 224; 224] /\
      forall c h x, c < 3 -> h < 224 -> x < 224 ->
        get t [0; c; h; x] = get (np_array r) [h; x; c] /\
        get t [0; c; h; x] = Some (F32.of_uint8 (getpixel r x h c)).
Proof.
  eexists. eexists. eexists.
  split; [reflexivity | split; [reflexivity | split; [reflexivity | split]]].
  - cbn. repeat constructor.
  - eapply (preprocess_layout decode resample "cheetah.png" rgba_world start).
    + reflexivity.
    + reflexivity.
    + reflexivity.
    + cbn. repeat constructor.
Defined.

(** The 2x1 RGB picture makes the script print 150,528 scalars. *)
Lemma run_line_count_rgb :
  exists bytes img r,
    files rgb_world "cheetah.png" = Some bytes /\
    decode bytes = OK img /\
    resize img (224, 224) BILINEAR = OK r /\
    im_mode img = RGB /\
    exists t body,
      preprocess "cheetah.png" rgb_world start
      = ({| opened := ["cheetah.png"]; stdout := [] |}, OK t) /\
      run rgb_world
      = ({| opened := ["cheetah.png"];
            stdout := "std::vector<float> mushroom = {" :: body ++ ["};"] |},
         OK tt) /\
      List.length body = List.length (ravel t) /\
      Z.of_nat (List.length body) = (1 * 3 * 224 * 224)%Z /\
      Z.of_nat (List.length body) = 150528%Z.
Proof.
  eexists. eexists. eexists.
  split; [reflexivity | split; [reflexivity | split; [reflexivity | split]]].
  - reflexivity.
  - eapply (run_line_count decode resample str_float32 str_ndarray rgb_world).
    + reflexivity.
    + reflexivity.
    + reflexivity.
    + left. reflexivity.
Defined.

(** The values of the tensor of the 2x1 RGBA picture are its samples. *)
Lemma tensor_values_exact_rgba :
  exists s' t,
    preprocess "cheetah.png" rgba_world start = (s', OK t) /\
    exists bytes img r,
      files rgba_world "cheetah.png" = Some bytes /\ decode bytes = OK img /\
      resize img (224, 224) BILINEAR = OK r /\
      forall b c h x, in_shape [b; c; h; x] (shape t) = true ->
        exists v,
          get t [b; c; h; x] = Some v /\
          v = F32.of_uint8 (getpixel r x h c) /\
          F32.value v = Some (inject_Z (Z.of_N (Byte.to_N (getpixel r x h c)))).
Proof.
  eexists. eexists. split.
  - reflexivity.
  - eapply (tensor_values_exact decode resample "cheetah.png" rgba_world start).
    reflexivity.
Defined.

(** What the script prints for the 1x1 LA picture, read from any path. *)
Lemma script_output_la :
  exists s' t,
    preprocess "cheetah.png" la_world start = (s', OK t) /\
    script "cheetah.png" la_world start
    = (emit ("std::vector<float> mushroom = {"
             :: map (fun v => ("    " ++ str_float32 v ++ ",")%string) (ravel t)
             ++ ["};"]) s',
       OK tt) /\
    exists n0 n1 n2 n3,
      shape t = [n0; n1; n2; n3] /\
      List.length (ravel t) = n0 * n1 * n2 * n3 /\
      forall b c h x, b < n0 -> c < n1 -> h < n2 -> x < n3 ->
        exists v,
          get t [b; c; h; x] = Some v /\
          nth_error (ravel t) (((b * n1 + c) * n2 + h) * n3 + x) = Some v.
Proof.
  eexists. eexists. split.
  - reflexivity.
  - eapply (script_output decode resample str_float32 str_ndarray
              "cheetah.png" la_world start).
    reflexivity.
Defined.

(** Without the picture the script prints nothing, not even the opening
    line: the claim C5 as it stands, "for every run", fails on this run. *)
Lemma script_output_missing_file :
  stdout (fst (run empty_world)) = [] /\
  ~ (exists rest,
       stdout (fst (run empty_world))
       = "std::vector<float> mushroom = {" :: rest).
Proof.
  split.
  - reflexivity.
  - intros [rest H]. vm_compute in H. discriminate.
Qed.

(** The same picture among other files, later, elsewhere. *)
Lemma run_deterministic_rgba :
  files rgba_world "cheetah.png" = files rgba_world_later "cheetah.png" /\
  run rgba_world = run rgba_world_later /\
  stdout (fst (run rgba_world)) = stdout (fst (run rgba_world_later)).
Proof.
  split.
  - reflexivity.
  - apply (run_deterministic decode resample str_float32 str_ndarray).
    reflexivity.
Defined.

(** The 1x1 L picture: the transposition raises, nothing is printed. *)
Lemma run_fails_grayscale :
  fails decode resample l_world "cheetah.png"
    (ValueError "axes don't match array") /\
  run l_world
  = ({| opened := ["cheetah.png"]; stdout := [] |},
     raise (ValueError "axes don't match array")).
Proof.
  assert (H : fails decode resample l_world "cheetah.png"
                (ValueError "axes don't match array")).
  { eapply fails_array; reflexivity. }
  split.
  - exact H.
  - apply (run_fails decode resample str_float32 str_ndarray l_world _ H).
Defined.

(** The 1x1 LA picture gives a tensor of two channels. *)
Lemma preprocess_few_channels_la :
  exists bytes img r,
    files la_world "cheetah.png" = Some bytes /\
    decode bytes = OK img /\
    resize img (224, 224) BILINEAR = OK r /\
    shape (np_array r) = [224; 224; 2] /\
    2 < 3 /\
    exists a1 a2 t,
      transpose (np_array r) [2; 0; 1] = OK a1 /\
      expand_dims a1 0 = OK a2 /\
      getitem a2 [Slice None None; Slice (Some 0) (Some 3);
                  Slice None None; Slice None None] = OK t /\
      preprocess "cheetah.png" la_world start
      = ({| opened := ["cheetah.png"]; stdout := [] |}, OK t) /\
      shape t = [1; 2; 224; 224].
Proof.
  eexists. eexists. eexists.
  split; [reflexivity | split; [reflexivity | split; [reflexivity | split; [| split]]]].
  - reflexivity.
  - repeat constructor.
  - eapply (preprocess_few_channels decode resample "cheetah.png" la_world start).
    + reflexivity.
    + reflexivity.
    + reflexivity.
    + reflexivity.
    + repeat constructor.
Defined.

(** The 1x1 L picture gives no tensor. *)
Lemma preprocess_grayscale_l :
  exists bytes img r,
    files l_world "cheetah.png" = Some bytes /\
    decode bytes = OK img /\
    resize img (224, 224) BILINEAR = OK r /\
    ndim (np_array r) = 2 /\
    shape (np_array r) = [224; 224] /\
    transpose (np_array r) [2; 0; 1]
    = raise (ValueError "axes don't match array") /\
    preprocess "cheetah.png" l_world start
    = ({| opened := ["cheetah.png"]; stdout := [] |},
       raise (ValueError "axes don't match array")) /\
    forall s' t, preprocess "cheetah.png" l_world start <> (s', OK t).
Proof.
  eexists. eexists. eexists.
  split; [reflexivity | split; [reflexivity | split; [reflexivity | split]]].
  - reflexivity.
  - eapply (preprocess_grayscale decode resample "cheetah.png" l_world start).
    + reflexivity.
    + reflexivity.
    + reflexivity.
    + reflexivity.
Defined.

(** Other ways to fail: no file, no picture in the file, no pixels in
    the picture. *)
Example run_missing_file :
  run empty_world
  = ({| opened := ["cheetah.png"]; stdout := [] |},
     raise (IOError "No such file or directory")).
Proof. reflexivity. Qed.

Example run_junk_file :
  run junk_world
  = ({| opened := ["cheetah.png"]; stdout := [] |},
     raise (IOError "cannot identify image file")).
Proof. reflexivity. Qed.

Example run_empty_picture :
  run zero_world
  = ({| opened := ["cheetah.png"]; stdout := [] |},
     raise (ValueError "cannot resize an empty image")).
Proof. reflexivity. Qed.

End Runs.

(** * More on the script *)

Lemma flat_map_single {A B} (g : A -> B) l :
  flat_map (fun x => [g x]) l = map g l.
Proof.
  induction l as [|x l IH]; cbn; [reflexivity | now rewrite IH].
Qed.

Lemma walk_in_buffer ds : forall b off v, In v (walk ds b off) -> In v b.
Proof.
  induction ds as [|[d s] rest IH]; intros b off v H.
  - cbn in H. destruct (nth_error b off) as [u|] eqn:E; [| contradiction].
    destruct H as [<- | []]. now apply nth_error_In with off.
  - rewrite walk_cons in H. apply in_flat_map in H.
    destruct H as (i & _ & H). now apply IH with (off + i * s).
Qed.

(** The ravel of the view is the raster of the first bands of the image,
    band after band. *)
Lemma ravel_chw_view img :
  ravel (chw_view img)
  = map F32.of_uint8 (planes (Nat.min 3 (bands (im_mode img))) img).
Proof.
  unfold ravel, chw_view, planes. cbn [dims offset buf].
  rewrite walk_cons. cbn [seq flat_map]. rewrite app_nil_r.
  rewrite walk_cons, map_flat_map.
  apply flat_map_pointwise. intros c Hc. apply in_seq in Hc.
  rewrite walk_cons, map_flat_map.
  apply flat_map_pointwise. intros h Hh. apply in_seq in Hh.
  rewrite walk_cons, map_map, <- flat_map_single.
  apply flat_map_pointwise. intros x Hx. apply in_seq in Hx.
  apply walk_scalar. unfold np_array. cbn [buf]. rewrite nth_error_map.
  replace (0 + 0 * 0 + c * 1
           + h * (width img * (bands (im_mode img) * 1))
           + x * (bands (im_mode img) * 1))
    with (h * (width img * bands (im_mode img)) + (x * bands (im_mode img) + c))
    by lia.
  rewrite raster_nth by lia. reflexivity.
Qed.

Lemma planes_pointwise n img1 img2 :
  width img1 = width img2 ->
  height img1 = height img2 ->
  (forall x y c, x < width img1 -> y < height img1 -> c < n ->
     getpixel img1 x y c = getpixel img2 x y c) ->
  planes n img1 = planes n img2.
Proof.
  intros Hw Hh H. unfold planes. rewrite <- Hw, <- Hh.
  apply flat_map_pointwise. intros c Hc. apply in_seq in Hc.
  apply flat_map_pointwise. intros y Hy. apply in_seq in Hy.
  apply map_ext_in. intros x Hx. apply in_seq in Hx.
  apply H; lia.
Qed.

Lemma planes_row_length img c y :
  List.length (map (fun x => getpixel img x y c) (seq 0 (width img)))
  = width img.
Proof. now rewrite length_map, length_seq. Qed.

Lemma planes_band_length img c :
  List.length
    (flat_map (fun y => map (fun x => getpixel img x y c) (seq 0 (width img)))
       (seq 0 (height img)))
  = height img * width img.
Proof. apply chunks_length. intros. apply planes_row_length. Qed.

(** Sample [c] of pixel [(x, y)] is at position [(c * H + y) * W + x]. *)
Lemma planes_nth n img c y x :
  c < n -> y < height img -> x < width img ->
  nth_error (planes n img) ((c * height img + y) * width img + x)
  = Some (getpixel img x y c).
Proof.
  intros Hc Hy Hx. unfold planes.
  replace ((c * height img + y) * width img + x)
    with (c * (height img * width img) + (y * width img + x)) by lia.
  rewrite (chunks_nth _ (height img * width img));
    [| intros; apply planes_band_length | assumption | now apply radix_lt].
  rewrite (chunks_nth _ (width img));
    [| intros; apply planes_row_length | assumption | assumption].
  rewrite nth_error_map, nth_error_seq.
  apply Nat.ltb_lt in Hx. now rewrite Hx.
Qed.

(** ** Lines 8 to 10 on any array *)

(** The three array operations return exactly on arrays of three axes,
    and raise at the transposition exactly on the others. *)
Theorem tensor_of_array_rank a :
  ((exists t, tensor_of_array a = OK t) <-> ndim a = 3) /\
  (tensor_of_array a = raise (ValueError "axes don't match array")
   <-> ndim a <> 3).
Proof.
  assert (H3 : ndim a = 3 -> exists t, tensor_of_array a = OK t).
  { unfold ndim. intros H.
    destruct (dims a) as [|[d0 s0] [|[d1 s1] [|[d2 s2] [|]]]] eqn:E;
      try discriminate.
    eexists. now apply tensor_of_array_3d with (1 := E). }
  split; split.
  - intros [t Ht]. destruct (Nat.eq_dec (ndim a) 3) as [|Hn]; [assumption |].
    rewrite tensor_of_array_wrong_rank in Ht by assumption. discriminate.
  - exact H3.
  - intros He Hn. destruct (H3 Hn) as [t Ht]. rewrite Ht in He. discriminate.
  - apply tensor_of_array_wrong_rank.
Qed.

(** On any view [a] of three axes, whatever its strides and offset, the
    result has shape (1, min 3 d2, d0, d1); its element (0, c, h, w) is
    the element (h, w, c) of [a] for c < 3, and there is no element of
    batch index other than 0 or of channel index 3 or more. *)
Theorem tensor_of_array_layout a d0 d1 d2 :
  shape a = [d0; d1; d2] ->
  exists t,
    tensor_of_array a = OK t /\
    shape t = [1; Nat.min 3 d2; d0; d1] /\
    (forall c h x, c < 3 -> get t [0; c; h; x] = get a [h; x; c]) /\
    (forall b c h x, b <> 0 \/ 3 <= c -> get t [b; c; h; x] = None).
Proof.
  unfold shape. intros Hs.
  destruct (dims a) as [|[e0 s0] [|[e1 s1] [|[e2 s2] [|]]]] eqn:E;
    try discriminate.
  cbn in Hs. injection Hs as -> -> ->.
  eexists. split; [now apply tensor_of_array_3d with (1 := E) |].
  split; [reflexivity | split].
  - intros c h x Hc. unfold get, shape, strides. rewrite E.
    cbn [dims offset buf map fst snd in_shape dot].
    change (0 <? 1) with true. cbn [andb].
    replace (c <? Nat.min 3 d2) with (c <? d2).
    + destruct (c <? d2), (h <? d0), (x <? d1); cbn [andb]; try reflexivity.
      f_equal. lia.
    + destruct (Nat.ltb_spec c d2), (Nat.ltb_spec c (Nat.min 3 d2));
        try reflexivity; lia.
  - intros b c h x Hbc. unfold get, shape. cbn [dims map fst in_shape].
    destruct (Nat.ltb_spec b 1) as [Hb|Hb]; [| reflexivity].
    destruct (Nat.ltb_spec c (Nat.min 3 d2)) as [Hc|Hc]; [| reflexivity].
    lia.
Qed.

Lemma append_comma_inj (s1 s2 : string) :
  (s1 ++ ",")%string = (s2 ++ ",")%string -> s1 = s2.
Proof.
  revert s2. induction s1 as [|c s1 IH]; intros [|d s2] H; cbn in H.
  - reflexivity.
  - injection H as _ H. destruct s2; discriminate.
  - injection H as _ H. destruct s1; discriminate.
  - injection H as -> H. f_equal. now apply IH.
Qed.

Section Extras.

Variable decode : list byte -> result Image.
Variable resample :
  filter -> Image -> nat * nat -> result (nat -> nat -> nat -> byte).
Variable str_float32 : float32 -> string.
Variable str_ndarray : ndarray -> string.

Local Notation resize := (resize resample).
Local Notation preprocess := (preprocess decode resample).
Local Notation script := (script decode resample str_float32 str_ndarray).
Local Notation run := (run decode resample str_float32 str_ndarray).
Local Notation fails := (fails decode resample).
Local Notation line :=
  (fun b : byte => ("    " ++ str_float32 (F32.of_uint8 b) ++ ",")%string).

(** ** What [preprocess] returns, whatever the picture *)

(** Every tensor that [preprocess] returns has shape (1, c, 224, 224)
    with c = 2 or c = 3, and c * 224 * 224 elements; c is the number of
    bands of the picture when that is below 3, and 3 otherwise. *)
Theorem preprocess_returns_shape path w s s' t :
  preprocess path w s = (s', OK t) ->
  exists bytes img c,
    files w path = Some bytes /\ decode bytes = OK img /\
    c = Nat.min 3 (bands (im_mode img)) /\
    (c = 2 \/ c = 3) /\
    shape t = [1; c; 224; 224] /\
    Z.of_nat (List.length (ravel t)) = (Z.of_nat c * 50176)%Z.
Proof.
  intros H. apply (preprocess_returns decode resample) in H.
  destruct H as (bytes & img & r & Hf & Hd & Hr & Hb & _ & ->).
  destruct (resize_224 resample _ _ Hr) as (Hw & Hh & Hbands).
  exists bytes, img, (Nat.min 3 (bands (im_mode img))).
  rewrite Hbands in Hb.
  repeat split; try assumption.
  - destruct (im_mode img); cbn in *; auto. congruence.
  - now rewrite shape_chw_view, Hw, Hh, Hbands.
  - rewrite (ravel_length (chw_view r) _ _ _ _ _ _ _ _ eq_refl
               (chw_view_in_bounds r)).
    rewrite Hw, Hh, Hbands. lia.
Qed.

(** Every value of a returned tensor is a whole number from 0 to 255. *)
Theorem tensor_values_in_range path w s s' t v :
  preprocess path w s = (s', OK t) ->
  In v (ravel t) ->
  exists n : Z, (0 <= n <= 255)%Z /\ F32.value v = Some (inject_Z n).
Proof.
  intros H Hv. apply (preprocess_returns decode resample) in H.
  destruct H as (bytes & img & r & _ & _ & _ & _ & _ & ->).
  apply walk_in_buffer in Hv. unfold chw_view, np_array in Hv.
  cbn [buf] in Hv. apply in_map_iff in Hv. destruct Hv as (b & <- & _).
  exists (Z.of_N (Byte.to_N b)). split; [| apply of_uint8_exact].
  pose proof (Byte.to_N_bounded b). lia.
Qed.

(** ** What the script prints *)

(** The listing in terms of the bands of the resized image. *)
Lemma run_planes w bytes img r :
  files w "cheetah.png" = Some bytes ->
  decode bytes = OK img ->
  resize img (224, 224) BILINEAR = OK r ->
  bands (im_mode r) <> 1 ->
  run w
  = ({| opened := ["cheetah.png"];
        stdout := "std::vector<float> mushroom = {"
                  :: map line (planes (Nat.min 3 (bands (im_mode r))) r)
                  ++ ["};"] |},
     OK tt).
Proof.
  intros Hf Hd Hr Hb.
  assert (Hp : preprocess "cheetah.png" w start
               = ({| opened := ["cheetah.png"]; stdout := [] |},
                  OK (chw_view r))).
  { rewrite (preprocess_decoded decode resample _ _ _ _ _ _ Hf Hd Hr).
    now rewrite tensor_of_array_np_array. }
  unfold run, main.
  rewrite (script_prints decode resample str_float32 str_ndarray _ _ _ _ _ Hp).
  now rewrite ravel_chw_view, map_map.
Qed.

(** When the picture decodes and resizes to [r], an image of several
    bands, the run prints the opening line, then the samples of band 0 of
    [r] row by row, then those of band 1, then those of band 2 if there
    is one, then the closing line, and returns. *)
Theorem run_prints_planes w bytes img r :
  files w "cheetah.png" = Some bytes ->
  decode bytes = OK img ->
  resize img (224, 224) BILINEAR = OK r ->
  bands (im_mode r) <> 1 ->
  run w
  = ({| opened := ["cheetah.png"];
        stdout := "std::vector<float> mushroom = {"
                  :: map line (planes (Nat.min 3 (bands (im_mode r))) r)
                  ++ ["};"] |},
     OK tt).
Proof. exact (run_planes w bytes img r). Qed.

(** The line of sample [c] of the pixel in column [x] of row [h] of the
    resized picture is line 1 + (c * 224 + h) * 224 + x of the output. *)
Theorem run_line_of_sample w bytes img r c h x :
  files w "cheetah.png" = Some bytes ->
  decode bytes = OK img ->
  resize img (224, 224) BILINEAR = OK r ->
  bands (im_mode r) <> 1 ->
  c < Nat.min 3 (bands (im_mode r)) -> h < 224 -> x < 224 ->
  nth_error (stdout (fst (run w))) (1 + ((c * 224 + h) * 224 + x))
  = Some (line (getpixel r x h c)).
Proof.
  intros Hf Hd Hr Hb Hc Hh Hx.
  rewrite (run_planes w bytes img r Hf Hd Hr Hb).
  destruct (resize_224 resample _ _ Hr) as (Hw & Hh' & _).
  cbn [fst stdout]. change (1 + ?k) with (S k). cbn [nth_error].
  pose proof (planes_nth (Nat.min 3 (bands (im_mode r))) r c h x Hc) as Hn.
  rewrite Hw, Hh' in Hn. specialize (Hn Hh Hx).
  rewrite nth_error_app1.
  - now rewrite nth_error_map, Hn.
  - rewrite length_map. apply nth_error_Some. now rewrite Hn.
Qed.

(** Two pictures whose resized images agree on the bands 0, 1 and 2 print
    the same text, whatever a fourth band holds and whether there is one. *)
Theorem output_ignores_alpha w1 w2 bytes1 bytes2 img1 img2 r1 r2 :
  files w1 "cheetah.png" = Some bytes1 -> decode bytes1 = OK img1 ->
  resize img1 (224, 224) BILINEAR = OK r1 ->
  files w2 "cheetah.png" = Some bytes2 -> decode bytes2 = OK img2 ->
  resize img2 (224, 224) BILINEAR = OK r2 ->
  3 <= bands (im_mode r1) -> 3 <= bands (im_mode r2) ->
  (forall x y c, x < 224 -> y < 224 -> c < 3 ->
     getpixel r1 x y c = getpixel r2 x y c) ->
  stdout (fst (run w1)) = stdout (fst (run w2)).
Proof.
  intros Hf1 Hd1 Hr1 Hf2 Hd2 Hr2 Hb1 Hb2 Hpx.
  rewrite (run_planes w1 _ _ _ Hf1 Hd1 Hr1) by lia.
  rewrite (run_planes w2 _ _ _ Hf2 Hd2 Hr2) by lia.
  destruct (resize_224 resample _ _ Hr1) as (Hw1 & Hh1 & _).
  destruct (resize_224 resample _ _ Hr2) as (Hw2 & Hh2 & _).
  cbn [fst stdout]. rewrite !Nat.min_l by assumption.
  rewrite (planes_pointwise 3 r1 r2); try congruence.
  intros x y c Hx Hy Hc. apply Hpx; congruence.
Qed.

(** ** Every run *)

(** A run hands [Image.open] the one path [cheetah.png], once, whatever
    the world and however the run ends. *)
Theorem run_opens_one_file w : opened (fst (run w)) = ["cheetah.png"].
Proof.
  unfold run, main.
  destruct (preprocess "cheetah.png" w start) as [s' [e|t]] eqn:E.
  - rewrite (script_raises decode resample str_float32 str_ndarray _ _ _ _ _ E).
    rewrite (preprocess_steps decode resample) in E. now inversion E.
  - rewrite (script_prints decode resample str_float32 str_ndarray _ _ _ _ _ E).
    rewrite (preprocess_steps decode resample) in E. now inversion E.
Qed.

(** Standard output is all or nothing: a run either raises with nothing
    printed, or returns with the whole listing, closing line included. *)
Theorem run_all_or_nothing w :
  (exists e,
     run w = ({| opened := ["cheetah.png"]; stdout := [] |}, raise e)) \/
  (exists t,
     preprocess "cheetah.png" w start
     = ({| opened := ["cheetah.png"]; stdout := [] |}, OK t) /\
     run w
     = ({| opened := ["cheetah.png"];
           stdout := "std::vector<float> mushroom = {"
                     :: map (fun v => ("    " ++ str_float32 v ++ ",")%string)
                          (ravel t)
                     ++ ["};"] |},
        OK tt)).
Proof.
  assert (Hfst : fst (preprocess "cheetah.png" w start)
                 = {| opened := ["cheetah.png"]; stdout := [] |})
    by now rewrite (preprocess_steps decode resample).
  unfold run, main.
  destruct (preprocess "cheetah.png" w start) as [s' [e|t]] eqn:E;
    cbn [fst] in Hfst; subst s'.
  - left. exists e.
    now rewrite (script_raises decode resample str_float32 str_ndarray
                   _ _ _ _ _ E).
  - right. exists t. split; [reflexivity |].
    now rewrite (script_prints decode resample str_float32 str_ndarray
                   _ _ _ _ _ E).
Qed.

(** A run raises [e] exactly when a library call inside [preprocess]
    raises [e]: the print loop itself never raises. *)
Theorem run_raises_iff_fails w e :
  snd (run w) = raise e <-> fails w "cheetah.png" e.
Proof.
  split.
  - unfold run, main. intros H.
    destruct (preprocess "cheetah.png" w start) as [s' [e'|t]] eqn:E.
    + rewrite (script_raises decode resample str_float32 str_ndarray _ _ _ _ _ E)
        in H.
      cbn in H. inversion H. subst e'. clear H.
      rewrite (preprocess_steps decode resample) in E.
      inversion E as [[Hs He]]. clear E.
      destruct (files w "cheetah.png") as [bytes|] eqn:Hf.
      * destruct (decode bytes) as [e1|img] eqn:Hd.
        -- cbn in He. inversion He. subst e1. now apply fails_decode with bytes.
        -- cbn [rbind] in He. unfold tensor_of_image in He.
           destruct (resize img (224, 224) BILINEAR) as [e2|r] eqn:Hr.
           ++ cbn in He. inversion He. subst e2.
              now apply fails_resize with bytes img.
           ++ cbn [rbind] in He. now apply fails_array with bytes img r.
      * inversion He. now apply fails_missing.
    + rewrite (script_prints decode resample str_float32 str_ndarray _ _ _ _ _ E)
        in H.
      discriminate.
  - intros H. destruct H as [Hf He | bytes Hf Hd | bytes img Hf Hd Hr
                             | bytes img img' Hf Hd Hr Ha].
    all: unfold run, main.
    all: erewrite (script_raises decode resample str_float32 str_ndarray);
      [reflexivity |].
    all: rewrite (preprocess_steps decode resample), Hf.
    + now rewrite He.
    + now rewrite Hd.
    + rewrite Hd. unfold OK at 1. cbn [rbind]. unfold tensor_of_image.
      now rewrite Hr.
    + rewrite Hd. unfold OK at 1. cbn [rbind]. unfold tensor_of_image.
      rewrite Hr. unfold OK at 1. cbn [rbind]. now rewrite Ha.
Qed.

(** When the text of a float32 tells the uint8 it was cast from, the
    listing tells the picture: two runs that print the same text had
    resized images with the same bands 0, 1 and 2. *)
Theorem output_determines_pixels w1 w2 bytes1 bytes2 img1 img2 r1 r2 :
  (forall a b : byte,
     str_float32 (F32.of_uint8 a) = str_float32 (F32.of_uint8 b) -> a = b) ->
  files w1 "cheetah.png" = Some bytes1 -> decode bytes1 = OK img1 ->
  resize img1 (224, 224) BILINEAR = OK r1 ->
  files w2 "cheetah.png" = Some bytes2 -> decode bytes2 = OK img2 ->
  resize img2 (224, 224) BILINEAR = OK r2 ->
  3 <= bands (im_mode r1) -> 3 <= bands (im_mode r2) ->
  stdout (fst (run w1)) = stdout (fst (run w2)) ->
  forall x y c, x < 224 -> y < 224 -> c < 3 ->
    getpixel r1 x y c = getpixel r2 x y c.
Proof.
  intros Hinj Hf1 Hd1 Hr1 Hf2 Hd2 Hr2 Hb1 Hb2 Hout x y c Hx Hy Hc.
  rewrite (run_planes w1 _ _ _ Hf1 Hd1 Hr1) in Hout by lia.
  rewrite (run_planes w2 _ _ _ Hf2 Hd2 Hr2) in Hout by lia.
  cbn [fst stdout] in Hout. rewrite !Nat.min_l in Hout by assumption.
  injection Hout as Hout. apply app_inv_tail in Hout.
  destruct (resize_224 resample _ _ Hr1) as (Hw1 & Hh1 & _).
  destruct (resize_224 resample _ _ Hr2) as (Hw2 & Hh2 & _).
  apply (f_equal (fun l => nth_error l ((c * 224 + y) * 224 + x))) in Hout.
  cbv beta in Hout. rewrite !nth_error_map in Hout.
  pose proof (planes_nth 3 r1 c y x) as P1. rewrite Hw1, Hh1 in P1.
  pose proof (planes_nth 3 r2 c y x) as P2. rewrite Hw2, Hh2 in P2.
  rewrite P1, P2 in Hout by assumption.
  cbn [option_map append] in Hout. injection Hout as Hout.
  apply Hinj. now apply append_comma_inj.
Qed.

End Extras.

Section ExtrasHelpers.

Variable decode : list byte -> result Image.
Variable resample :
  filter -> Image -> nat * nat -> result (nat -> nat -> nat -> byte).

Lemma preprocess_view path w s bytes img r :
  files w path = Some bytes ->
  decode bytes = OK img ->
  resize resample img (224, 224) BILINEAR = OK r ->
  bands (im_mode r) <> 1 ->
  preprocess decode resample path w s
  = ({| opened := opened s ++ [path]; stdout := stdout s |}, OK (chw_view r)).
Proof.
  intros Hf Hd Hr Hb.
  rewrite (preprocess_decoded decode resample _ _ _ _ _ _ Hf Hd Hr).
  now rewrite tensor_of_array_np_array.
Qed.

End ExtrasHelpers.

Lemma ravel_head img :
  0 < Nat.min 3 (bands (im_mode img)) -> 0 < height img -> 0 < width img ->
  In (F32.of_uint8 (getpixel img 0 0 0)) (ravel (chw_view img)).
Proof.
  intros Hc Hh Hw. apply nth_error_In with 0.
  rewrite ravel_chw_view, nth_error_map.
  pose proof (planes_nth _ img 0 0 0 Hc Hh Hw) as H.
  change ((0 * height img + 0) * width img + 0) with 0 in H.
  now rewrite H.
Qed.

(** * More runs on concrete files *)

Module MoreRuns.

Import Demo.

Local Notation preprocess := (preprocess decode resample).
Local Notation resize := (resize resample).
Local Notation run := (run decode resample str_float32 str_ndarray).

Ltac picture :=
  eexists; eexists; eexists;
  split; [reflexivity | split; [reflexivity | split; [reflexivity |]]].

Lemma str_float32_parse b :
  parse_uint8 (str_float32 (F32.of_uint8 b)) = Some b.
Proof. destruct b; vm_compute; reflexivity. Qed.

Lemma str_float32_injective a b :
  str_float32 (F32.of_uint8 a) = str_float32 (F32.of_uint8 b) -> a = b.
Proof.
  intros H. apply (f_equal parse_uint8) in H.
  rewrite !str_float32_parse in H. now injection H.
Qed.

(** The toy RGBA picture and its RGB version resize alike on bands 0 to 2. *)
Lemma rgb_agrees img1 img2 r1 r2 :
  decode rgba_file = OK img1 -> decode rgb_file = OK img2 ->
  resize img1 (224, 224) BILINEAR = OK r1 ->
  resize img2 (224, 224) BILINEAR = OK r2 ->
  forall x y c, x < 224 -> y < 224 -> c < 3 ->
    getpixel r1 x y c = getpixel r2 x y c.
Proof.
  intros H1 H2 H3 H4 x y c Hx Hy Hc.
  injection H1 as <-. injection H2 as <-.
  injection H3 as <-. injection H4 as <-.
  cbn [getpixel width height im_size fst snd].
  change (PosDef.Pos.to_nat 1) with 1. change (PosDef.Pos.to_nat 2) with 2.
  change (fst (Nat.divmod (y * 1) 223 0 223)) with (y * 1 / 224).
  change (fst (Nat.divmod (x * 2) 223 0 223)) with (x * 2 / 224).
  rewrite Nat.mul_1_r, (Nat.div_small y 224) by assumption.
  assert (Hq : x * 2 / 224 < 2) by (apply Nat.Div0.div_lt_upper_bound; lia).
  destruct (x * 2 / 224) as [|[|q]]; [| | lia];
    destruct c as [|[|[|c]]]; try lia; reflexivity.
Qed.

(** Lines 8 to 10 on a 1 x 2 array of four channels. *)
Lemma tensor_of_array_layout_1x2x4 :
  let a := {| dims := [(1, 8); (2, 4); (4, 1)];
              offset := 0;
              buf := map F32.of_uint8 [x0a; x14; x1e; xff; x28; x32; x3c; x80] |} in
  shape a = [1; 2; 4] /\
  exists t,
    tensor_of_array a = OK t /\
    shape t = [1; Nat.min 3 4; 1; 2] /\
    (forall c h x, c < 3 -> get t [0; c; h; x] = get a [h; x; c]) /\
    (forall b c h x, b <> 0 \/ 3 <= c -> get t [b; c; h; x] = None).
Proof.
  intros a. split; [reflexivity |].
  apply (tensor_of_array_layout a 1 2 4). reflexivity.
Defined.

(** The tensor of the 1x1 LA picture has two channels. *)
Lemma preprocess_returns_shape_la :
  exists s' t,
    preprocess "cheetah.png" la_world start = (s', OK t) /\
    exists bytes img c,
      files la_world "cheetah.png" = Some bytes /\ decode bytes = OK img /\
      c = Nat.min 3 (bands (im_mode img)) /\
      (c = 2 \/ c = 3) /\
      shape t = [1; c; 224; 224] /\
      Z.of_nat (List.length (ravel t)) = (Z.of_nat c * 50176)%Z.
Proof.
  eexists. eexists. split.
  - reflexivity.
  - eapply (preprocess_returns_shape decode resample "cheetah.png" la_world start).
    reflexivity.
Defined.

(** The first value of the tensor of the 2x1 RGBA picture. *)
Lemma tensor_values_in_range_rgba :
  exists bytes img r s' t v,
    files rgba_world "cheetah.png" = Some bytes /\
    decode bytes = OK img /\
    resize img (224, 224) BILINEAR = OK r /\
    preprocess "cheetah.png" rgba_world start = (s', OK t) /\
    In v (ravel t) /\
    exists n : Z, (0 <= n <= 255)%Z /\ F32.value v = Some (inject_Z n).
Proof.
  eexists. eexists. eexists. eexists. eexists. eexists.
  split; [reflexivity | split; [reflexivity | split; [reflexivity |]]].
  match goal with
  | |- _ /\ In _ _ /\ _ =>
      assert (Hp : preprocess "cheetah.png" rgba_world start
                   = ({| opened := opened start ++ ["cheetah.png"];
                         stdout := stdout start |},
                      OK (chw_view
                            {| im_mode := RGBA;
                               im_size := (224, 224);
                               getpixel := fun x y b =>
                                 nth ((y * 1 / 224 * 2 + x * 2 / 224) * 4 + b)
                                   [x0a; x14; x1e; xff; x28; x32; x3c; x80] x00 |})))
  end.
  { eapply preprocess_view; [reflexivity | reflexivity | reflexivity |].
    cbn. discriminate. }
  split; [exact Hp | ].
  assert (Hin : In (F32.of_uint8 x0a)
                  (ravel (chw_view
                            {| im_mode := RGBA;
                               im_size := (224, 224);
                               getpixel := fun x y b =>
                                 nth ((y * 1 / 224 * 2 + x * 2 / 224) * 4 + b)
                                   [x0a; x14; x1e; xff; x28; x32; x3c; x80] x00 |}))).
  { apply (ravel_head
             {| im_mode := RGBA;
                im_size := (224, 224);
                getpixel := fun x y b =>
                  nth ((y * 1 / 224 * 2 + x * 2 / 224) * 4 + b)
                    [x0a; x14; x1e; xff; x28; x32; x3c; x80] x00 |});
      cbn; lia. }
  split; [exact Hin |].
  exact (tensor_values_in_range decode resample "cheetah.png" rgba_world start
           _ _ _ Hp Hin).
Defined.

(** The listing of the 1x1 LA picture: band 0, then band 1. *)
Lemma run_prints_planes_la :
  exists bytes img r,
    files la_world "cheetah.png" = Some bytes /\
    decode bytes = OK img /\
    resize img (224, 224) BILINEAR = OK r /\
    bands (im_mode r) <> 1 /\
    run la_world
    = ({| opened := ["cheetah.png"];
          stdout := "std::vector<float> mushroom = {"
                    :: map (fun b => ("    " ++ str_float32 (F32.of_uint8 b)
                                      ++ ",")%string)
                         (planes (Nat.min 3 (bands (im_mode r))) r)
                    ++ ["};"] |},
       OK tt).
Proof.
  picture. split.
  - cbn. discriminate.
  - eapply (run_prints_planes decode resample str_float32 str_ndarray la_world).
    + reflexivity.
    + reflexivity.
    + reflexivity.
    + cbn. discriminate.
Defined.

(** The line of the blue sample of pixel (0, 1) of the 2x1 RGBA picture. *)
Lemma run_line_of_sample_rgba :
  exists bytes img r,
    files rgba_world "cheetah.png" = Some bytes /\
    decode bytes = OK img /\
    resize img (224, 224) BILINEAR = OK r /\
    bands (im_mode r) <> 1 /\
    2 < Nat.min 3 (bands (im_mode r)) /\
    nth_error (stdout (fst (run rgba_world))) (1 + ((2 * 224 + 1) * 224 + 0))
    = Some ("    " ++ str_float32 (F32.of_uint8 (getpixel r 0 1 2)) ++ ",")%string.
Proof.
  picture. split; [| split].
  - cbn. discriminate.
  - cbn. lia.
  - eapply (run_line_of_sample decode resample str_float32 str_ndarray
              rgba_world).
    + reflexivity.
    + reflexivity.
    + reflexivity.
    + cbn. discriminate.
    + cbn. lia.
    + lia.
    + lia.
Defined.

(** The 2x1 RGBA picture and its RGB version print the same text. *)
Lemma output_ignores_alpha_rgba_rgb :
  exists bytes1 img1 r1,
    files rgba_world "cheetah.png" = Some bytes1 /\
    decode bytes1 = OK img1 /\
    resize img1 (224, 224) BILINEAR = OK r1 /\
    exists bytes2 img2 r2,
      files rgb_world "cheetah.png" = Some bytes2 /\
      decode bytes2 = OK img2 /\
      resize img2 (224, 224) BILINEAR = OK r2 /\
      im_mode r1 = RGBA /\ im_mode r2 = RGB /\
      (forall x y c, x < 224 -> y < 224 -> c < 3 ->
         getpixel r1 x y c = getpixel r2 x y c) /\
      stdout (fst (run rgba_world)) = stdout (fst (run rgb_world)).
Proof.
  picture. picture.
  split; [reflexivity | split; [reflexivity |]].
  match goal with
  | |- (forall x y c, _ -> _ -> _ -> getpixel ?r1 x y c = getpixel ?r2 x y c) /\ _ =>
      assert (Hpx : forall x y c, x < 224 -> y < 224 -> c < 3 ->
                      getpixel r1 x y c = getpixel r2 x y c)
  end.
  { eapply rgb_agrees; reflexivity. }
  split; [exact Hpx |].
  eapply (output_ignores_alpha decode resample str_float32 str_ndarray
            rgba_world rgb_world).
  - reflexivity.
  - reflexivity.
  - reflexivity.
  - reflexivity.
  - reflexivity.
  - reflexivity.
  - cbn. lia.
  - cbn. lia.
  - exact Hpx.
Defined.

(** Reading the picture back from two equal listings. *)
Lemma output_determines_pixels_rgba :
  exists bytes1 img1 r1,
    files rgba_world "cheetah.png" = Some bytes1 /\
    decode bytes1 = OK img1 /\
    resize img1 (224, 224) BILINEAR = OK r1 /\
    exists bytes2 img2 r2,
      files rgba_world_later "cheetah.png" = Some bytes2 /\
      decode bytes2 = OK img2 /\
      resize img2 (224, 224) BILINEAR = OK r2 /\
      stdout (fst (run rgba_world)) = stdout (fst (run rgba_world_later)) /\
      forall x y c, x < 224 -> y < 224 -> c < 3 ->
        getpixel r1 x y c = getpixel r2 x y c.
Proof.
  picture. picture.
  assert (Hout : stdout (fst (run rgba_world))
                 = stdout (fst (run rgba_world_later))).
  { unfold run, main.
    now rewrite (script_same_file decode resample str_float32 str_ndarray
                   "cheetah.png" rgba_world rgba_world_later start eq_refl). }
  split; [exact Hout |].
  eapply (output_determines_pixels decode resample str_float32 str_ndarray
            rgba_world rgba_world_later).
  - exact str_float32_injective.
  - reflexivity.
  - reflexivity.
  - reflexivity.
  - reflexivity.
  - reflexivity.
  - reflexivity.
  - cbn. lia.
  - cbn. lia.
  - exact Hout.
Defined.

End MoreRuns.

(** * Line 6: the resize *)

Local Open Scope Z_scope.

Lemma Z_of_uint8_range b : 0 <= Z_of_uint8 b <= 255.
Proof.
  unfold Z_of_uint8. pose proof (Byte.to_N_bounded b). lia.
Qed.

Lemma uint8_of_Z_of_uint8 b : uint8_of_Z (Z_of_uint8 b) = b.
Proof.
  unfold uint8_of_Z. pose proof (Z_of_uint8_range b) as H.
  rewrite Z.min_l, Z.max_r by lia. unfold Z_of_uint8.
  now rewrite N2Z.id, Byte.of_to_N.
Qed.

Lemma Z_of_uint8_of_Z z : 0 <= z <= 255 -> Z_of_uint8 (uint8_of_Z z) = z.
Proof.
  intros H. unfold uint8_of_Z. rewrite Z.min_l, Z.max_r by lia.
  destruct (Byte.of_N (Z.to_N z)) as [b|] eqn:E.
  - apply Byte.to_of_N in E. unfold Z_of_uint8. rewrite E. lia.
  - pose proof (Byte.to_of_N_option_map (Z.to_N z)) as Hm. rewrite E in Hm.
    cbn [option_map] in Hm.
    destruct (N.leb_spec (Z.to_N z) 255); [discriminate | lia].
Qed.

Lemma axis_pos_range n_in n_out i :
  (0 < n_in)%nat -> (0 < n_out)%nat ->
  0 <= axis_pos n_in n_out i <= (Z.of_nat n_in - 1) * (2 * Z.of_nat n_out).
Proof. unfold axis_pos. nia. Qed.

(** Mirror images: the positions of output pixels [i] and [n_out - 1 - i]
    lie as far from the two ends of the input. *)
Lemma axis_pos_mirror n_in n_out i :
  (0 < n_in)%nat -> (i < n_out)%nat ->
  axis_pos n_in n_out i + axis_pos n_in n_out (n_out - 1 - i)
  = (Z.of_nat n_in - 1) * (2 * Z.of_nat n_out).
Proof.
  intros Hn Hi. unfold axis_pos.
  replace (Z.of_nat (n_out - 1 - i)) with (Z.of_nat n_out - 1 - Z.of_nat i)
    by lia.
  nia.
Qed.

Lemma axis_taps_spec n_in n_out i :
  (0 < n_in)%nat -> (0 < n_out)%nat ->
  (tap_lo (axis_taps n_in n_out i) <= tap_hi (axis_taps n_in n_out i)
   < n_in)%nat /\
  tap_hi (axis_taps n_in n_out i)
  = Nat.min (tap_lo (axis_taps n_in n_out i) + 1) (n_in - 1) /\
  0 <= tap_frac (axis_taps n_in n_out i) < 2 * Z.of_nat n_out /\
  Z.of_nat (tap_lo (axis_taps n_in n_out i)) * (2 * Z.of_nat n_out)
  + tap_frac (axis_taps n_in n_out i)
  = axis_pos n_in n_out i.
Proof.
  intros Hi Ho. pose proof (axis_pos_range n_in n_out i Hi Ho) as Hp.
  unfold axis_taps. cbn [tap_lo tap_hi tap_frac].
  set (den := 2 * Z.of_nat n_out) in *. set (p := axis_pos n_in n_out i) in *.
  assert (Hden : 0 < den) by (unfold den; lia).
  assert (Hq : 0 <= p / den <= Z.of_nat n_in - 1).
  { split.
    - apply Z.div_pos; lia.
    - apply Z.div_le_upper_bound; lia. }
  pose proof (Z.mod_pos_bound p den Hden) as Hm.
  pose proof (Z.div_mod p den ltac:(lia)) as Hdm.
  repeat split; lia.
Qed.

Section Blend.

Variables dx dy : Z.
Variables tx ty : taps.
Variables p00 p10 p01 p11 : byte.
Hypothesis Hdx : 0 < dx.
Hypothesis Hdy : 0 < dy.
Hypothesis Hfx : 0 <= tap_frac tx < dx.
Hypothesis Hfy : 0 <= tap_frac ty < dy.

(** The blend is the weighted average, rounded; nothing is clipped. *)
Lemma blend_value :
  Z_of_uint8 (blend dx dy tx ty p00 p10 p01 p11)
  = (2 * ((dx - tap_frac tx) * (dy - tap_frac ty) * Z_of_uint8 p00
          + tap_frac tx * (dy - tap_frac ty) * Z_of_uint8 p10
          + (dx - tap_frac tx) * tap_frac ty * Z_of_uint8 p01
          + tap_frac tx * tap_frac ty * Z_of_uint8 p11)
     + dx * dy) / (2 * (dx * dy)).
Proof.
  unfold blend. apply Z_of_uint8_of_Z.
  pose proof (Z_of_uint8_range p00) as H00.
  pose proof (Z_of_uint8_range p10) as H10.
  pose proof (Z_of_uint8_range p01) as H01.
  pose proof (Z_of_uint8_range p11) as H11.
  set (fx := tap_frac tx) in *. set (fy := tap_frac ty) in *.
  set (a := (dx - fx) * (dy - fy)). set (b := fx * (dy - fy)).
  set (c := (dx - fx) * fy). set (d := fx * fy).
  assert (Ha : 0 <= a) by (unfold a; nia).
  assert (Hb : 0 <= b) by (unfold b; nia).
  assert (Hc : 0 <= c) by (unfold c; nia).
  assert (Hd : 0 <= d) by (unfold d; nia).
  assert (Hsum : a + b + c + d = dx * dy) by (unfold a, b, c, d; ring).
  assert (HD : 0 < dx * dy) by nia.
  assert (Hlo : 0 <= a * Z_of_uint8 p00 + b * Z_of_uint8 p10
                     + c * Z_of_uint8 p01 + d * Z_of_uint8 p11) by nia.
  assert (Hhi : a * Z_of_uint8 p00 + b * Z_of_uint8 p10
                + c * Z_of_uint8 p01 + d * Z_of_uint8 p11 <= 255 * (dx * dy)).
  { rewrite <- Hsum. nia. }
  split.
  - apply Z.div_pos; lia.
  - apply Z.lt_succ_r. apply Z.div_lt_upper_bound; lia.
Qed.

End Blend.

Lemma blend_constant dx dy tx ty v :
  0 < dx -> 0 < dy ->
  blend dx dy tx ty v v v v = v.
Proof.
  intros Hdx Hdy. unfold blend.
  set (fx := tap_frac tx). set (fy := tap_frac ty).
  replace ((dx - fx) * (dy - fy) * Z_of_uint8 v + fx * (dy - fy) * Z_of_uint8 v
           + (dx - fx) * fy * Z_of_uint8 v + fx * fy * Z_of_uint8 v)
    with (dx * dy * Z_of_uint8 v) by ring.
  replace (2 * (dx * dy * Z_of_uint8 v) + dx * dy)
    with (dx * dy + Z_of_uint8 v * (2 * (dx * dy))) by ring.
  assert (HD : 0 < dx * dy) by nia.
  rewrite Z.div_add by lia. rewrite Z.div_small by lia.
  apply uint8_of_Z_of_uint8.
Qed.

Local Close Scope Z_scope.

Section Resize.

Variable decode : list byte -> result Image.
Variable resample :
  filter -> Image -> nat * nat -> result (nat -> nat -> nat -> byte).

Local Notation resize := (resize resample).
Local Notation preprocess := (preprocess decode resample).

Lemma bilinear_224 img :
  0 < width img -> 0 < height img ->
  bilinear img (224, 224)
  = OK (fun x y b =>
          blend 448 448
            (axis_taps (width img) 224 x) (axis_taps (height img) 224 y)
            (getpixel img (tap_lo (axis_taps (width img) 224 x))
                          (tap_lo (axis_taps (height img) 224 y)) b)
            (getpixel img (tap_hi (axis_taps (width img) 224 x))
                          (tap_lo (axis_taps (height img) 224 y)) b)
            (getpixel img (tap_lo (axis_taps (width img) 224 x))
                          (tap_hi (axis_taps (height img) 224 y)) b)
            (getpixel img (tap_hi (axis_taps (width img) 224 x))
                          (tap_hi (axis_taps (height img) 224 y)) b)).
Proof.
  intros HW HH. unfold bilinear. cbn [fst snd].
  destruct (width img) as [|W]; [lia |].
  destruct (height img) as [|H]; [lia |].
  reflexivity.
Qed.

(** C6: let the resampler PIL runs for [Image.BILINEAR] be bilinear
    interpolation.  Then for a picture of any resolution W x H, line 6
    of [preprocess] yields an image of exactly 224 x 224 in the mode of
    the picture, and that image is what lines 7 to 10 work on.  Its
    sample in column x of row y is the rounded weighted average of the
    four input samples next to the point the centre of that pixel is
    stretched to: along the width that point is (x + 1/2) * W / 224 - 1/2
    and depends on x and W alone, along the height it is
    (y + 1/2) * H / 224 - 1/2 and depends on y and H alone (positions
    below are counted in 448ths), so each axis has its own scale and the
    ratio of W to H is not kept.  The four samples are inside the
    picture, over its whole width and height: nothing is cropped away,
    and nothing is padded in, a picture of one colour staying of that
    colour all over. *)
Theorem preprocess_resizes_bilinear path w s bytes img :
  (forall im sz, resample BILINEAR im sz = bilinear im sz) ->
  files w path = Some bytes ->
  decode bytes = OK img ->
  0 < width img -> 0 < height img ->
  exists r,
    resize img (224, 224) BILINEAR = OK r /\
    preprocess path w s
    = ({| opened := opened s ++ [path]; stdout := stdout s |},
       tensor_of_array (np_array r)) /\
    width r = 224 /\ height r = 224 /\ im_mode r = im_mode img /\
    (forall x y b, x < 224 -> y < 224 ->
       exists tx ty : taps,
         tap_lo tx <= tap_hi tx < width img /\
         tap_hi tx = Nat.min (tap_lo tx + 1) (width img - 1) /\
         (0 <= tap_frac tx < 448)%Z /\
         (Z.of_nat (tap_lo tx) * 448 + tap_frac tx
          = Z.max 0
              (Z.min ((2 * Z.of_nat x + 1) * Z.of_nat (width img) - 224)
                     ((Z.of_nat (width img) - 1) * 448)))%Z /\
         tap_lo ty <= tap_hi ty < height img /\
         tap_hi ty = Nat.min (tap_lo ty + 1) (height img - 1) /\
         (0 <= tap_frac ty < 448)%Z /\
         (Z.of_nat (tap_lo ty) * 448 + tap_frac ty
          = Z.max 0
              (Z.min ((2 * Z.of_nat y + 1) * Z.of_nat (height img) - 224)
                     ((Z.of_nat (height img) - 1) * 448)))%Z /\
         (Z_of_uint8 (getpixel r x y b)
          = (2 * ((448 - tap_frac tx) * (448 - tap_frac ty)
                    * Z_of_uint8 (getpixel img (tap_lo tx) (tap_lo ty) b)
                  + tap_frac tx * (448 - tap_frac ty)
                    * Z_of_uint8 (getpixel img (tap_hi tx) (tap_lo ty) b)
                  + (448 - tap_frac tx) * tap_frac ty
                    * Z_of_uint8 (getpixel img (tap_lo tx) (tap_hi ty) b)
                  + tap_frac tx * tap_frac ty
                    * Z_of_uint8 (getpixel img (tap_hi tx) (tap_hi ty) b))
             + 448 * 448) / (2 * (448 * 448)))%Z) /\
    (forall b v,
       (forall x y, x < width img -> y < height img -> getpixel img x y b = v) ->
       forall x y, x < 224 -> y < 224 -> getpixel r x y b = v).
Proof.
  intros Hres Hf Hd HW HH.
  pose proof (bilinear_224 img HW HH) as Hb.
  match type of Hb with
  | _ = OK ?px =>
      set (r := {| im_mode := im_mode img; im_size := (224, 224);
                   getpixel := px |})
  end.
  assert (Hr : resize img (224, 224) BILINEAR = OK r).
  { unfold resize. rewrite Hres, Hb. reflexivity. }
  assert (H224 : (0 < 224)%nat) by apply Nat.lt_0_succ.
  exists r. split; [exact Hr | split; [| split; [| split; [| split; [| split]]]]].
  - apply (preprocess_decoded decode resample _ _ _ _ _ _ Hf Hd Hr).
  - reflexivity.
  - reflexivity.
  - reflexivity.
  - intros x y b Hx Hy.
    exists (axis_taps (width img) 224 x), (axis_taps (height img) 224 y).
    destruct (axis_taps_spec (width img) 224 x HW H224)
      as (Hx1 & Hx2 & Hx3 & Hx4).
    destruct (axis_taps_spec (height img) 224 y HH H224)
      as (Hy1 & Hy2 & Hy3 & Hy4).
    change (2 * Z.of_nat 224)%Z with 448%Z in Hx3, Hx4, Hy3, Hy4.
    unfold axis_pos in Hx4, Hy4.
    change (Z.of_nat 224) with 224%Z in Hx4, Hy4.
    change (2 * 224)%Z with 448%Z in Hx4, Hy4.
    repeat (split; [assumption |]).
    unfold r. cbn [getpixel]. apply blend_value; assumption || reflexivity.
  - intros b v Hv x y Hx Hy. unfold r. cbn [getpixel].
    destruct (axis_taps_spec (width img) 224 x HW H224) as (Hx1 & _).
    destruct (axis_taps_spec (height img) 224 y HH H224) as (Hy1 & _).
    rewrite !Hv by lia. apply blend_constant; reflexivity.
Qed.

End Resize.

Module ResizeRuns.

Import Demo.

(** A 100 x 50 RGBA picture comes out 224 x 224: the sample of the one
    pixel set stays at the corner and fades over the next columns. *)
Lemma preprocess_resizes_bilinear_100x50 :
  exists bytes img,
    (forall im sz, resample_by_filter BILINEAR im sz = bilinear im sz) /\
    files wide_world "cheetah.png" = Some bytes /\
    decode bytes = OK img /\
    width img = 100 /\ height img = 50 /\
    exists r,
      resize resample_by_filter img (224, 224) BILINEAR = OK r /\
      preprocess decode resample_by_filter "cheetah.png" wide_world start
      = ({| opened := ["cheetah.png"]; stdout := [] |},
         tensor_of_array (np_array r)) /\
      width r = 224 /\ height r = 224 /\ im_mode r = RGBA /\
      getpixel r 0 0 0 = x0a /\ getpixel r 2 0 0 = x04 /\
      getpixel r 223 223 0 = x00.
Proof.
  eexists. eexists.
  split; [intros; reflexivity |].
  split; [reflexivity | split; [reflexivity | split; [reflexivity |]]].
  split; [reflexivity |].
  destruct (preprocess_resizes_bilinear decode resample_by_filter
              "cheetah.png" wide_world start wide_file _
              (fun im sz => eq_refl) eq_refl eq_refl)
    as (r & Hr & Hp & Hw & Hh & Hm & _).
  - cbn. lia.
  - cbn. lia.
  - exists r. repeat split; try assumption.
    + injection Hr as <-. reflexivity.
    + injection Hr as <-. reflexivity.
    + injection Hr as <-. reflexivity.
Defined.

End ResizeRuns.
